(** * SkillSwap: the session lifecycle, the review gate, skill search and badges

    Shallow embedding of [server/routes.ts] (the Express handlers),
    [server/storage.ts] (the Drizzle data-access layer), [shared/schema.ts]
    (the table definitions) and the badge computation of the client
    dashboard ([client/src/pages/Dashboard.tsx]).

    Conventions of the model:
    - strings are Stdlib [string]s (ASCII); [String.toLowerCase] is modelled on
      the ASCII letters;
    - timestamps are [Z] (milliseconds);
    - a JSON number sent by the client is a rational [Q] (JSON has no NaN or
      infinity, and a decimal literal is a rational);
    - each table is a [gmap] keyed by the primary key, except [reviews], which
      only grows and is kept as the list of inserted rows;
    - a handler runs in [M], a state monad over the database with an early
      exit carrying the HTTP response ([return res.status(..).json(..)]). *)

From Stdlib Require Import String Ascii ZArith QArith List Bool Sorted.
From stdpp Require Import base gmap strings list sorting pretty.

Open Scope string_scope.

(* ------------------------------------------------------------------ *)
(** ** Data model ([shared/schema.ts]) *)

Module User.
Record t := mk {
    id : string;
    username : string;
    password : string;
    email : string;
    fullName : string;
    bio : option string;
    avatarUrl : option string;
    isAdmin : bool;
    createdAt : Z
  }.
End User.

Module Skill.
Record t := mk {
    id : string;
    userId : string;
    name : string;
    description : option string;
    category : string;
    type : string;
    experienceLevel : option string;
    createdAt : Z
  }.
End Skill.

Module Session.
Record t := mk {
    id : string;
    requesterId : string;
    providerId : string;
    skillId : string;
    status : string;
    scheduledAt : option Z;
    message : option string;
    createdAt : Z
  }.
End Session.

Module Review.
Record t := mk {
    id : string;
    sessionId : string;
    reviewerId : string;
    revieweeId : string;
    rating : Z;          (* integer("rating") *)
    comment : option string;
    createdAt : Z
  }.
End Review.

(** The database: the four tables, plus the two sources of the column
    defaults ([gen_random_uuid()] and [defaultNow()]). *)
Record DB := mkDB {
  users : gmap string User.t;
  skills : gmap string Skill.t;
  sessions : gmap string Session.t;
  reviews : list Review.t;
  next_uuid : N;
  now : Z
}.

Definition fresh_uuid (db : DB) : string := pretty (next_uuid db).

(* ------------------------------------------------------------------ *)
(** ** HTTP responses and the handler monad *)

(** A [SkillWithUser] row as serialised by [res.json]: the skill columns and
    the joined owner.  A user object in a response keeps the [password]
    column unless the handler overwrote it with [undefined], which
    [JSON.stringify] drops: [None] here. *)
Record UserJson := mkUserJson {
  uj_id : string;
  uj_username : string;
  uj_password : option string;
  uj_email : string;
  uj_fullName : string;
  uj_bio : option string;
  uj_avatarUrl : option string;
  uj_isAdmin : bool;
  uj_createdAt : Z
}.

Definition user_json (u : User.t) : UserJson :=
  mkUserJson (User.id u) (User.username u) (Some (User.password u)) (User.email u)
    (User.fullName u) (User.bio u) (User.avatarUrl u) (User.isAdmin u) (User.createdAt u).

(** [{ ...user, password: undefined }] *)
Definition user_json_without_password (u : User.t) : UserJson :=
  mkUserJson (User.id u) (User.username u) None (User.email u)
    (User.fullName u) (User.bio u) (User.avatarUrl u) (User.isAdmin u) (User.createdAt u).

Record SkillWithUser := mkSkillWithUser {
  swu_skill : Skill.t;
  swu_user : UserJson
}.

(** A row of [storage.getSessionsByUserId]: the session columns with the
    joined requester and skill, and the provider fetched one query later
    ([const [provider] = ...], [undefined] when there is none). *)
Record SessionWithDetails := mkSessionWithDetails {
  swd_session : Session.t;
  swd_requester : User.t;
  swd_provider : option User.t;
  swd_skill : Skill.t
}.

(** The result of [storage.getStats]: [Object.entries] of the two count
    objects as (name, value) pairs. *)
Record Stats := mkStats {
  totalUsers : nat;
  totalSkills : nat;
  totalSessions : nat;
  skillsByCategory : list (string * nat);
  sessionsByStatus : list (string * nat)
}.

(** The body of [GET /api/users/:id/stats].  [averageRating] is the exact
    quotient; the response carries it rounded to a double. *)
Record UserStats := mkUserStats {
  us_completedSessions : nat;
  us_offeringSkills : nat;
  us_seekingSkills : nat;
  us_averageRating : Q;
  us_reviewCount : nat;
  us_badges : list string
}.

Inductive Body :=
  | BMessage (msg : string)
  | BUser (u : UserJson)
  | BAuthUser (u : UserJson)   (* { user: ... } of register, login and me *)
  | BSession (s : option Session.t)   (* res.json(updated), possibly undefined *)
  | BReview (r : Review.t)
  | BSkills (l : list SkillWithUser)
  | BSkill (s : Skill.t)
  | BUsers (l : list UserJson)
  | BStats (st : Stats)
  | BSessionDetails (l : list SessionWithDetails)
  | BReviews (l : list Review.t)
  | BSkillList (l : list Skill.t)
  | BUserStats (st : UserStats).

Record Response := mkResponse { code : Z; body : Body }.

Definition respond (c : Z) (m : string) : Response := mkResponse c (BMessage m).

(** A computation either exits early with a response or yields a value;
    it threads the database. *)
Definition M (A : Type) : Type := DB -> (Response + A) * DB.

Definition ret {A} (a : A) : M A := fun db => (inr a, db).
Definition bind {A B} (m : M A) (k : A -> M B) : M B :=
  fun db => match m db with
            | (inl r, db') => (inl r, db')
            | (inr a, db') => k a db'
            end.
Definition exit {A} (r : Response) : M A := fun db => (inl r, db).
Definition read {A} (f : DB -> A) : M A := fun db => (inr (f db), db).

Global Instance M_ret : MRet M := @ret.
Global Instance M_bind : MBind M := fun A B k m => bind m k.

(** Running a handler: the early exit and the final [res.json] both produce
    the response. *)
Definition run (h : M Response) (db : DB) : Response * DB :=
  match h db with
  | (inl r, db') => (r, db')
  | (inr r, db') => (r, db')
  end.

(** [requireAuth]: the authenticated user id of the cookie session. *)
Definition requireAuth (userId : option string) : M string :=
  match userId with
  | Some u => ret u
  | None => exit (respond 401 "Unauthorized")
  end.

(* ------------------------------------------------------------------ *)
(** ** Data-access layer ([server/storage.ts]) for sessions *)

Definition getSession (id : string) : M (option Session.t) :=
  read (fun db => sessions db !! id).

Definition set_status (st : string) (s : Session.t) : Session.t :=
  Session.mk (Session.id s) (Session.requesterId s) (Session.providerId s)
    (Session.skillId s) st (Session.scheduledAt s) (Session.message s)
    (Session.createdAt s).

(** [db.update(sessions).set({ status }).where(eq(sessions.id, id)).returning()]:
    the only partial row the route passes is [{ status }]. *)
Definition updateSession (id : string) (st : string) : M (option Session.t) :=
  fun db =>
    match sessions db !! id with
    | Some s =>
        let s' := set_status st s in
        (inr (Some s'),
         mkDB (users db) (skills db) (<[id := s']> (sessions db)) (reviews db)
              (next_uuid db) (now db))
    | None => (inr None, db)
    end.

(* ------------------------------------------------------------------ *)
(** ** [PATCH /api/sessions/:id] *)

(** [["accepted", "completed", "cancelled"].includes(status)]; a missing or
    non-string [status] is [None]. *)
Definition is_update_status (status : option string) : bool :=
  match status with
  | Some s => bool_decide (s ∈ ["accepted"; "completed"; "cancelled"])
  | None => false
  end.

Definition patchSession (userId : option string) (id : string)
    (status : option string) : M Response :=
  me ← requireAuth userId;
  (if is_update_status status then ret tt
   else exit (respond 400 "Invalid status"));;
  osession ← getSession id;
  match osession with
  | None => exit (respond 404 "Session not found")
  | Some session =>
      let st := default "" status in
      (if bool_decide (st = "accepted") || bool_decide (st = "completed") then
         if bool_decide (Session.providerId session <> me) then
           exit (respond 403 "Only the provider can update this session")
         else ret tt
       else if bool_decide (st = "cancelled") then
         if bool_decide (Session.providerId session <> me)
            && bool_decide (Session.requesterId session <> me) then
           exit (respond 403 "Not authorized")
         else ret tt
       else ret tt);;
      updated ← updateSession id st;
      ret (mkResponse 200 (BSession updated))
  end.

(* ------------------------------------------------------------------ *)
(** ** [POST /api/reviews] *)

(** The [rating] field of the JSON body: a number, or any other JSON value
    (string, boolean, null, object, or absent), which [typeof] rejects. *)
Inductive JsonValue :=
  | JNumber (q : Q)
  | JNotNumber.

Record ReviewBody := mkReviewBody {
  rb_sessionId : option string;
  rb_revieweeId : option string;
  rb_rating : JsonValue;
  rb_comment : option string
}.

(** JavaScript truthiness of an optional string: [undefined] and [""] are
    falsy. *)
Definition truthy (o : option string) : bool :=
  match o with
  | Some s => bool_decide (s <> "")
  | None => false
  end.

(** [storage.createReview]: one [INSERT ... RETURNING].  The [rating] column
    is [integer("rating")]; node-postgres sends the number as its text, and
    PostgreSQL refuses a non-integral text such as ["4.5"] for an [integer]
    column; the error is thrown out of the handler and [asyncHandler] turns
    it into a 500 without touching the table. *)
Definition createReview (sessionId reviewerId revieweeId : string) (rating : Q)
    (comment : option string) : M Review.t :=
  fun db =>
    if Pos.eqb (Qden (Qred rating)) 1 then
      let r := Review.mk (fresh_uuid db) sessionId reviewerId revieweeId
                 (Qnum (Qred rating)) comment (now db) in
      (inr r, mkDB (users db) (skills db) (sessions db) (reviews db ++ [r])
                (N.succ (next_uuid db)) (now db))
    else (inl (respond 500 "An error occurred. Please try again."), db).

(** The row [createReview] appends for a validated request. *)
Definition review_row (db : DB) (sid me rid : string) (q : Q) (comment : option string) :
    Review.t :=
  Review.mk (fresh_uuid db) sid me rid (Qnum (Qred q)) comment (now db).

Definition postReview (userId : option string) (b : ReviewBody) : M Response :=
  me ← requireAuth userId;
  '(sessionId, revieweeId, rating) ←
    (match rb_sessionId b, rb_revieweeId b, rb_rating b with
     | Some sid, Some rid, JNumber q =>
         if negb (truthy (Some sid)) || negb (truthy (Some rid))
            || negb (Qle_bool 1 q) || negb (Qle_bool q 5)
         then exit (respond 400 "Invalid review data")
         else ret (sid, rid, q)
     | _, _, _ => exit (respond 400 "Invalid review data")
     end);
  osession ← getSession sessionId;
  session ←
    (match osession with
     | Some s =>
         if bool_decide (Session.status s <> "completed")
         then exit (respond 400 "Can only review completed sessions")
         else ret s
     | None => exit (respond 400 "Can only review completed sessions")
     end);
  (if bool_decide (Session.requesterId session <> me)
      && bool_decide (Session.providerId session <> me)
   then exit (respond 403 "Not authorized to review this session")
   else ret tt);;
  (if bool_decide (revieweeId <> Session.requesterId session)
      && bool_decide (revieweeId <> Session.providerId session)
   then exit (respond 400 "Invalid reviewee")
   else ret tt);;
  review ← createReview sessionId me revieweeId rating (rb_comment b);
  ret (mkResponse 201 (BReview review)).

(* ------------------------------------------------------------------ *)
(** ** Skill search ([storage.searchSkills] and [GET /api/search]) *)

(** [String.prototype.toLowerCase] on ASCII. *)
Definition lower_ascii (c : ascii) : ascii :=
  let n := nat_of_ascii c in
  if ((65 <=? n) && (n <=? 90))%nat then ascii_of_nat (n + 32) else c.

Fixpoint toLowerCase (s : string) : string :=
  match s with
  | EmptyString => EmptyString
  | String c t => String (lower_ascii c) (toLowerCase t)
  end.

(** [hay.includes(needle)]: [needle] occurs at some position of [hay]. *)
Fixpoint includes (hay needle : string) : bool :=
  String.prefix needle hay ||
  match hay with
  | EmptyString => false
  | String _ t => includes t needle
  end.

(** [ORDER BY skills.created_at DESC]. *)
Definition newer_first (a b : SkillWithUser) : Prop :=
  (Skill.createdAt (swu_skill b) <= Skill.createdAt (swu_skill a))%Z.

Global Instance newer_first_dec : RelDecision newer_first.
Proof. intros a b. unfold newer_first. apply _. Defined.

Global Instance newer_first_total : Total newer_first.
Proof. intros a b. unfold newer_first. lia. Qed.

Global Instance newer_first_trans : Transitive newer_first.
Proof. intros a b c. unfold newer_first. lia. Qed.

(** [SELECT ... FROM skills INNER JOIN users ON skills.user_id = users.id],
    with the whole user row (password included) under [user]. *)
Definition skills_join_users (db : DB) : list SkillWithUser :=
  omap (fun s => (fun u => mkSkillWithUser s (user_json u)) <$> users db !! Skill.userId s)
    (map snd (map_to_list (skills db))).

Definition baseQuery (db : DB) : list SkillWithUser :=
  merge_sort newer_first (skills_join_users db).

Definition matches_query (lowerQuery : string) (s : SkillWithUser) : bool :=
  includes (toLowerCase (Skill.name (swu_skill s))) lowerQuery ||
  match Skill.description (swu_skill s) with
  | Some d => truthy (Some d) && includes (toLowerCase d) lowerQuery
  | None => false
  end.

Definition filter_query (query : option string) (l : list SkillWithUser) :
    list SkillWithUser :=
  if truthy query then
    List.filter (matches_query (toLowerCase (default "" query))) l
  else l.

Definition filter_category (category : option string) (l : list SkillWithUser) :
    list SkillWithUser :=
  if truthy category then
    List.filter (fun s => bool_decide (Skill.category (swu_skill s) = default "" category)) l
  else l.

Definition searchSkills (query category : option string) : M (list SkillWithUser) :=
  results ← read baseQuery;
  ret (filter_category category (filter_query query results)).

Definition getSearch (q category : option string) : M Response :=
  skills ← searchSkills q category;
  ret (mkResponse 200 (BSkills skills)).

(** [GET /api/auth/me]: the one auth endpoint that only reads. *)
Definition getMe (userId : option string) : M Response :=
  match userId with
  | None => exit (respond 401 "Not authenticated")
  | Some uid =>
      ou ← read (fun db => users db !! uid);
      match ou with
      | None => exit (respond 401 "User not found")
      | Some u => ret (mkResponse 200 (BAuthUser (user_json_without_password u)))
      end
  end.

(* ------------------------------------------------------------------ *)
(** ** Badges *)

Definition completedCount (sessions : list Session.t) : nat :=
  length (List.filter (fun s => String.eqb (Session.status s) "completed") sessions).

Definition offeringCount (skills : list Skill.t) : nat :=
  length (List.filter (fun s => String.eqb (Skill.type s) "offering") skills).

(** [reviews.reduce((sum, r) => sum + r.rating, 0) / reviews.length], or 0. *)
Definition averageRating (reviews : list Review.t) : Q :=
  if (0 <? length reviews)%nat then
    (fold_left (fun sum r => sum + inject_Z (Review.rating r)) reviews 0
      / inject_Z (Z.of_nat (length reviews)))%Q
  else 0%Q.

(** [GET /api/users/:id/stats]: the [badges] array. *)
Definition statsBadges (skills : list Skill.t) (sessions : list Session.t)
    (reviews : list Review.t) : list string :=
  (if (5 <=? completedCount sessions)%nat then ["top_tutor"] else []) ++
  (if (3 <=? offeringCount skills)%nat then ["skill_master"] else []) ++
  (if (1 <=? length skills)%nat then ["getting_started"] else []) ++
  (if Qle_bool (9 # 2) (averageRating reviews) && (3 <=? length reviews)%nat
   then ["highly_rated"] else []).

(** The dashboard's [badges] array, by the [name] of each pushed badge (the
    icon and colour are presentation). *)
Definition dashboardBadges (skills : list Skill.t) (sessions : list Session.t) :
    list string :=
  (if (5 <=? completedCount sessions)%nat then ["Top Tutor"] else []) ++
  (if (3 <=? offeringCount skills)%nat then ["Skill Master"] else []) ++
  (if (1 <=? length skills)%nat then ["Getting Started"] else []).

(** The server key of each badge the dashboard displays. *)
Definition badge_key (name : string) : string :=
  if String.eqb name "Top Tutor" then "top_tutor"
  else if String.eqb name "Skill Master" then "skill_master"
  else if String.eqb name "Getting Started" then "getting_started"
  else if String.eqb name "Highly Rated" then "highly_rated"
  else name.

(* ------------------------------------------------------------------ *)
(** ** Request bodies *)

(** A field of a JSON body as a zod schema sees it: absent, a string, or any
    other JSON value. *)
Inductive JsonField :=
  | FAbsent
  | FString (s : string)
  | FOther.

(** [z.string()] *)
Definition zstring (f : JsonField) : option string :=
  match f with FString s => Some s | _ => None end.

(** [z.string().optional()] *)
Definition zoptional (f : JsonField) : option (option string) :=
  match f with
  | FAbsent => Some None
  | FString s => Some (Some s)
  | FOther => None
  end.

(** [modify]: a write to the database that cannot fail. *)
Definition modify (f : DB -> DB) : M unit := fun db => (inr tt, f db).

(** An error thrown by the driver (a constraint violation): [asyncHandler]
    answers 500 and the statement wrote nothing. *)
Definition db_error {A} : M A := exit (respond 500 "An error occurred. Please try again.").

(* ------------------------------------------------------------------ *)
(** ** Skills: [POST /api/skills], [DELETE /api/skills/:id] *)

Record SkillBody := mkSkillBody {
  sk_name : JsonField;
  sk_description : JsonField;
  sk_category : JsonField;
  sk_type : JsonField;
  sk_experienceLevel : JsonField
}.

(** [skillSchema.safeParse(req.body)] (routes.ts). *)
Definition parseSkill (b : SkillBody) :
    option (string * option string * string * string * option string) :=
  name ← zstring (sk_name b);
  guard (2 <= String.length name)%nat;;
  description ← zoptional (sk_description b);
  category ← zstring (sk_category b);
  guard (1 <= String.length category)%nat;;
  type ← zstring (sk_type b);
  guard (type = "offering" \/ type = "seeking");;
  experienceLevel ← zoptional (sk_experienceLevel b);
  Some (name, description, category, type, experienceLevel).

(** [storage.createSkill]: [INSERT INTO skills ... RETURNING]; the primary key
    must be new and [user_id] must name a user (foreign key). *)
Definition createSkill (userId name : string) (description : option string)
    (category type : string) (experienceLevel : option string) : M Skill.t :=
  fun db =>
    let id := fresh_uuid db in
    if bool_decide (skills db !! id = None) && bool_decide (is_Some (users db !! userId))
    then
      let s := Skill.mk id userId name description category type experienceLevel (now db) in
      (inr s, mkDB (users db) (<[id := s]> (skills db)) (sessions db) (reviews db)
                (N.succ (next_uuid db)) (now db))
    else db_error db.

Definition postSkill (userId : option string) (b : SkillBody) : M Response :=
  me ← requireAuth userId;
  match parseSkill b with
  | None => exit (respond 400 "Invalid input")
  | Some (name, description, category, type, experienceLevel) =>
      skill ← createSkill me name description category type experienceLevel;
      ret (mkResponse 201 (BSkill skill))
  end.

(** [DELETE FROM skills WHERE id = $1] with the cascades of the schema: the
    sessions on the skill go ([sessions.skill_id ... onDelete: "cascade"]),
    and with them their reviews ([reviews.session_id ... cascade]). *)
Definition session_of_skill (id : string) (s : Session.t) : bool :=
  bool_decide (Session.skillId s = id).

Definition deleteSkill (id : string) (db : DB) : DB :=
  mkDB (users db)
    (delete id (skills db))
    (filter (fun kv => negb (session_of_skill id kv.2)) (sessions db))
    (List.filter (fun r =>
       match sessions db !! Review.sessionId r with
       | Some s => negb (session_of_skill id s)
       | None => true
       end) (reviews db))
    (next_uuid db) (now db).

Definition deleteSkillRoute (userId : option string) (id : string) : M Response :=
  me ← requireAuth userId;
  oskill ← read (fun db => skills db !! id);
  match oskill with
  | None => exit (respond 404 "Skill not found")
  | Some skill =>
      (if bool_decide (Skill.userId skill <> me)
       then exit (respond 403 "Not authorized") else ret tt);;
      modify (deleteSkill id);;
      ret (respond 200 "Skill deleted")
  end.

(* ------------------------------------------------------------------ *)
(** ** [POST /api/sessions/request] *)

Record SessionRequestBody := mkSessionRequestBody {
  sr_skillId : JsonField;
  sr_providerId : JsonField;
  sr_message : JsonField
}.

(** [storage.createSession]: the row with [status: "pending"]; the route
    passes no [scheduledAt] (NULL).  Primary key new, and the three foreign
    keys must resolve. *)
Definition createSession (requesterId providerId skillId : string)
    (message : option string) : M Session.t :=
  fun db =>
    let id := fresh_uuid db in
    if bool_decide (sessions db !! id = None)
       && bool_decide (is_Some (users db !! requesterId))
       && bool_decide (is_Some (users db !! providerId))
       && bool_decide (is_Some (skills db !! skillId))
    then
      let s := Session.mk id requesterId providerId skillId "pending" None message (now db) in
      (inr s, mkDB (users db) (skills db) (<[id := s]> (sessions db)) (reviews db)
                (N.succ (next_uuid db)) (now db))
    else db_error db.

Definition requestSession (userId : option string) (b : SessionRequestBody) :
    M Response :=
  me ← requireAuth userId;
  match zstring (sr_skillId b), zstring (sr_providerId b), zoptional (sr_message b) with
  | Some skillId, Some providerId, Some message =>
      oskill ← read (fun db => skills db !! skillId);
      (match oskill with
       | Some skill =>
           if bool_decide (Skill.userId skill <> providerId)
           then exit (respond 400 "Invalid skill or provider") else ret tt
       | None => exit (respond 400 "Invalid skill or provider")
       end);;
      (if bool_decide (providerId = me)
       then exit (respond 400 "Cannot request session with yourself") else ret tt);;
      session ← createSession me providerId skillId message;
      ret (mkResponse 201 (BSession (Some session)))
  | _, _, _ => exit (respond 400 "Invalid input")
  end.

(* ------------------------------------------------------------------ *)
(** ** Admin routes *)

(** [requireAdmin]: 401 without a login, 403 unless the stored user has the
    admin flag (re-read on every request). *)
Definition requireAdmin (userId : option string) : M string :=
  match userId with
  | None => exit (respond 401 "Unauthorized")
  | Some uid =>
      ou ← read (fun db => users db !! uid);
      match ou with
      | Some u => if User.isAdmin u then ret uid else exit (respond 403 "Forbidden")
      | None => exit (respond 403 "Forbidden")
      end
  end.

Definition user_newer_first (a b : User.t) : Prop := (User.createdAt b <= User.createdAt a)%Z.

Global Instance user_newer_first_dec : RelDecision user_newer_first.
Proof. intros a b. unfold user_newer_first. apply _. Defined.

Global Instance user_newer_first_total : Total user_newer_first.
Proof. intros a b. unfold user_newer_first. lia. Qed.

(** [storage.getAllUsers]: [ORDER BY created_at DESC]. *)
Definition getAllUsers (db : DB) : list User.t :=
  merge_sort user_newer_first (map snd (map_to_list (users db))).

(** [GET /api/admin/users] *)
Definition adminListUsers (userId : option string) : M Response :=
  _ ← requireAdmin userId;
  us ← read getAllUsers;
  ret (mkResponse 200 (BUsers (map user_json_without_password us))).

(** [DELETE FROM users WHERE id = $1] with the cascades of the schema: the
    user's skills; the sessions where the user is requester or provider, or
    whose skill goes; the reviews the user wrote or received, or whose
    session goes. *)
Definition skill_of_user (id : string) (k : Skill.t) : bool :=
  bool_decide (Skill.userId k = id).

Definition session_of_user (db : DB) (id : string) (s : Session.t) : bool :=
  bool_decide (Session.requesterId s = id) || bool_decide (Session.providerId s = id) ||
  match skills db !! Session.skillId s with
  | Some k => skill_of_user id k
  | None => false
  end.

Definition review_of_user (db : DB) (id : string) (r : Review.t) : bool :=
  bool_decide (Review.reviewerId r = id) || bool_decide (Review.revieweeId r = id) ||
  match sessions db !! Review.sessionId r with
  | Some s => session_of_user db id s
  | None => false
  end.

Definition deleteUser (id : string) (db : DB) : DB :=
  mkDB (delete id (users db))
    (filter (fun kv => negb (skill_of_user id kv.2)) (skills db))
    (filter (fun kv => negb (session_of_user db id kv.2)) (sessions db))
    (List.filter (fun r => negb (review_of_user db id r)) (reviews db))
    (next_uuid db) (now db).

(** [DELETE /api/admin/users/:id] *)
Definition adminDeleteUser (userId : option string) (id : string) : M Response :=
  _ ← requireAdmin userId;
  (if bool_decide (Some id = userId)
   then exit (respond 400 "Cannot delete yourself") else ret tt);;
  modify (deleteUser id);;
  ret (respond 200 "User deleted").

(** [counts[key] = (counts[key] || 0) + 1] on a plain object, read back with
    [Object.entries].  The key ["__proto__"] hits the prototype setter,
    which ignores the string it is given: no entry is made.  A key naming
    another member of [Object.prototype] (listed below) reads the inherited
    function, and [fn + 1] stores a string: the model counts such a key like
    any other, so it is faithful only for keys outside that list.  (The
    order of [Object.entries], integer-like keys first, is not modelled;
    nothing below depends on it.) *)
Definition object_prototype_names : list string :=
  ["constructor"; "hasOwnProperty"; "isPrototypeOf"; "propertyIsEnumerable";
   "toLocaleString"; "toString"; "valueOf"; "__defineGetter__"; "__defineSetter__";
   "__lookupGetter__"; "__lookupSetter__"].

Fixpoint bump (counts : list (string * nat)) (key : string) : list (string * nat) :=
  match counts with
  | [] => [(key, 1%nat)]
  | (k, n) :: t => if String.eqb k key then (k, S n) :: t else (k, n) :: bump t key
  end.

Definition count_by (keys : list string) : list (string * nat) :=
  fold_left (fun counts key => if String.eqb key "__proto__" then counts else bump counts key)
    keys [].

(** [storage.getStats] *)
Definition getStats (db : DB) : Stats :=
  let allUsers := map snd (map_to_list (users db)) in
  let allSkills := map snd (map_to_list (skills db)) in
  let allSessions := map snd (map_to_list (sessions db)) in
  mkStats (length allUsers) (length allSkills) (length allSessions)
    (count_by (map Skill.category allSkills))
    (count_by (map Session.status allSessions)).

(** [GET /api/admin/stats] *)
Definition adminStats (userId : option string) : M Response :=
  _ ← requireAdmin userId;
  st ← read getStats;
  ret (mkResponse 200 (BStats st)).

(* ------------------------------------------------------------------ *)
(** ** Listings: [GET /api/sessions/my], [GET /api/reviews/:userId] *)

Definition session_newer_first (a b : Session.t * User.t * Skill.t) : Prop :=
  (Session.createdAt b.1.1 <= Session.createdAt a.1.1)%Z.

Global Instance session_newer_first_dec : RelDecision session_newer_first.
Proof. intros a b. unfold session_newer_first. apply _. Defined.

Global Instance session_newer_first_total : Total session_newer_first.
Proof. intros a b. unfold session_newer_first. lia. Qed.

(** The join [sessions INNER JOIN users ON requester_id INNER JOIN skills ON
    skill_id WHERE requester_id = $1 OR provider_id = $1]. *)
Definition sessions_join (db : DB) (userId : string) : list (Session.t * User.t * Skill.t) :=
  omap (fun s =>
          if bool_decide (Session.requesterId s = userId)
             || bool_decide (Session.providerId s = userId) then
            r ← users db !! Session.requesterId s;
            k ← skills db !! Session.skillId s;
            Some (s, r, k)
          else None)
    (map snd (map_to_list (sessions db))).

(** [storage.getSessionsByUserId]: the ordered join, then one provider query
    per row. *)
Definition getSessionsByUserId (db : DB) (userId : string) : list SessionWithDetails :=
  map (fun '(s, r, k) => mkSessionWithDetails s r (users db !! Session.providerId s) k)
    (merge_sort session_newer_first (sessions_join db userId)).

Definition getMySessions (userId : option string) : M Response :=
  me ← requireAuth userId;
  l ← read (fun db => getSessionsByUserId db me);
  ret (mkResponse 200 (BSessionDetails l)).

Definition review_newer_first (a b : Review.t) : Prop :=
  (Review.createdAt b <= Review.createdAt a)%Z.

Global Instance review_newer_first_dec : RelDecision review_newer_first.
Proof. intros a b. unfold review_newer_first. apply _. Defined.

Global Instance review_newer_first_total : Total review_newer_first.
Proof. intros a b. unfold review_newer_first. lia. Qed.

(** [storage.getReviewsByUserId]: the reviews about the user, newest first. *)
Definition getReviewsByUserId (db : DB) (userId : string) : list Review.t :=
  merge_sort review_newer_first
    (List.filter (fun r => bool_decide (Review.revieweeId r = userId)) (reviews db)).

(* ------------------------------------------------------------------ *)
(** ** [PATCH /api/admin/users/:id]

    The handler destructures [isAdmin] from the untyped request body and
    passes it to [storage.updateUser(id, { isAdmin })]. *)

(** The [isAdmin] field of the JSON body. *)
Inductive FlagField :=
  | FlagAbsent                  (* undefined *)
  | FlagNull                    (* null *)
  | FlagBool (b : bool)         (* true or false *)
  | FlagText (s : string)       (* a string, or a number as its JavaScript text *)
  | FlagStructured.             (* an array or an object *)

Definition is_pg_space (c : ascii) : bool :=
  let n := nat_of_ascii c in
  (n =? 32)%nat || ((9 <=? n) && (n <=? 13))%nat.

Fixpoint ltrim_pg (l : list ascii) : list ascii :=
  match l with
  | c :: t => if is_pg_space c then ltrim_pg t else l
  | [] => []
  end.

(** Is [v] a prefix of [w], ignoring the case of ASCII letters? *)
Fixpoint prefix_ci (v w : list ascii) : bool :=
  match v, w with
  | [], _ => true
  | c :: v', d :: w' => Ascii.eqb (lower_ascii c) (lower_ascii d) && prefix_ci v' w'
  | _ :: _, [] => false
  end.

(** PostgreSQL's [parse_bool_with_len]: a non-empty prefix of [true],
    [false], [yes] or [no], a prefix of [on] or [off] of at least two
    characters, or [1] or [0]; letters in any case. *)
Definition parse_bool_with_len (v : list ascii) : option bool :=
  match v with
  | [] => None
  | c :: _ =>
      let lc := lower_ascii c in
      if Ascii.eqb lc "t" then (if prefix_ci v (list_ascii_of_string "true") then Some true else None)
      else if Ascii.eqb lc "f" then
        (if prefix_ci v (list_ascii_of_string "false") then Some false else None)
      else if Ascii.eqb lc "y" then
        (if prefix_ci v (list_ascii_of_string "yes") then Some true else None)
      else if Ascii.eqb lc "n" then
        (if prefix_ci v (list_ascii_of_string "no") then Some false else None)
      else if Ascii.eqb lc "o" then
        (if (2 <=? length v)%nat && prefix_ci v (list_ascii_of_string "on") then Some true
         else if (2 <=? length v)%nat && prefix_ci v (list_ascii_of_string "off")
         then Some false else None)
      else if Ascii.eqb c "1" then (if (length v =? 1)%nat then Some true else None)
      else if Ascii.eqb c "0" then (if (length v =? 1)%nat then Some false else None)
      else None
  end.

(** PostgreSQL's [boolin]: surrounding white space is dropped, then
    [parse_bool_with_len]; [None] is the error
    [invalid input syntax for type boolean]. *)
Definition pg_boolin (s : string) : option bool :=
  parse_bool_with_len (rev (ltrim_pg (rev (ltrim_pg (list_ascii_of_string s))))).

(** The parameter bound to [is_admin]: [None] when the statement fails
    before any row is touched, [Some None] for SQL NULL, [Some (Some b)] for
    a boolean.  Drizzle leaves an undefined value out of the [SET] list, and
    an empty [SET] fails; node-postgres sends [true]/[false] and a string or
    number as text, which PostgreSQL converts with [boolin] when it binds
    the parameter, and an array or object as a literal starting with [{],
    which [boolin] refuses. *)
Definition flag_param (f : FlagField) : option (option bool) :=
  match f with
  | FlagAbsent => None
  | FlagNull => Some None
  | FlagBool b => Some (Some b)
  | FlagText s => option_map Some (pg_boolin s)
  | FlagStructured => None
  end.

Definition set_isAdmin (b : bool) (u : User.t) : User.t :=
  User.mk (User.id u) (User.username u) (User.password u) (User.email u)
    (User.fullName u) (User.bio u) (User.avatarUrl u) b (User.createdAt u).

(** [storage.updateUser(id, { isAdmin })]: [UPDATE users SET is_admin = $1
    WHERE id = $2 RETURNING *]; NULL on a matching row violates the
    [NOT NULL] of [is_admin].  A failure is thrown out of the handler and
    [asyncHandler] answers 500. *)
Definition updateUser (id : string) (isAdmin : FlagField) : M (option User.t) :=
  fun db =>
    match flag_param isAdmin with
    | None => db_error db
    | Some v =>
        match users db !! id with
        | None => (inr None, db)
        | Some u =>
            match v with
            | None => db_error db
            | Some b =>
                let u' := set_isAdmin b u in
                (inr (Some u'),
                 mkDB (<[id := u']> (users db)) (skills db) (sessions db) (reviews db)
                      (next_uuid db) (now db))
            end
        end
    end.

Definition adminSetAdmin (userId : option string) (id : string) (isAdmin : FlagField) :
    M Response :=
  _ ← requireAdmin userId;
  ou ← updateUser id isAdmin;
  match ou with
  | None => exit (respond 404 "User not found")
  | Some u => ret (mkResponse 200 (BUser (user_json_without_password u)))
  end.

(* ------------------------------------------------------------------ *)
(** ** [GET /api/skills/my] and [GET /api/users/:id/stats] *)

Definition skill_newer_first (a b : Skill.t) : Prop :=
  (Skill.createdAt b <= Skill.createdAt a)%Z.

Global Instance skill_newer_first_dec : RelDecision skill_newer_first.
Proof. intros a b. unfold skill_newer_first. apply _. Defined.

Global Instance skill_newer_first_total : Total skill_newer_first.
Proof. intros a b. unfold skill_newer_first. lia. Qed.

(** [storage.getSkillsByUserId] *)
Definition getSkillsByUserId (db : DB) (userId : string) : list Skill.t :=
  merge_sort skill_newer_first
    (List.filter (fun k => bool_decide (Skill.userId k = userId))
       (map snd (map_to_list (skills db)))).

Definition getMySkills (userId : option string) : M Response :=
  me ← requireAuth userId;
  l ← read (fun db => getSkillsByUserId db me);
  ret (mkResponse 200 (BSkillList l)).

Definition seekingCount (skills : list Skill.t) : nat :=
  length (List.filter (fun s => String.eqb (Skill.type s) "seeking") skills).

Definition getUserStats (id : string) : M Response :=
  ou ← read (fun db => users db !! id);
  match ou with
  | None => exit (respond 404 "User not found")
  | Some _ =>
      skills ← read (fun db => getSkillsByUserId db id);
      sessions ← read (fun db => map swd_session (getSessionsByUserId db id));
      reviews ← read (fun db => getReviewsByUserId db id);
      ret (mkResponse 200 (BUserStats
        (mkUserStats (completedCount sessions) (offeringCount skills)
           (seekingCount skills) (averageRating reviews) (length reviews)
           (statsBadges skills sessions reviews))))
  end.

(* ------------------------------------------------------------------ *)
(** ** [POST /api/auth/register], [POST /api/auth/login]

    A handler of these routes also writes [req.session.userId]: it returns
    the response with the id it stores in the cookie session ([None]: the
    session is left as it was). *)

Definition run_with_session (h : M (Response * option string)) (db : DB) :
    Response * option string * DB :=
  match h db with
  | (inl r, db') => (r, None, db')
  | (inr (r, sid), db') => (r, sid, db')
  end.

(** [storage.getUserByUsername] / [getUserByEmail]: the first matching row. *)
Definition getUserByUsername (db : DB) (username : string) : option User.t :=
  head (List.filter (fun u => bool_decide (User.username u = username))
          (map snd (map_to_list (users db)))).

Definition getUserByEmail (db : DB) (email : string) : option User.t :=
  head (List.filter (fun u => bool_decide (User.email u = email))
          (map snd (map_to_list (users db)))).

(** [storage.createUser]: a new primary key, and the [unique] constraints on
    [username] and [email]; [bio], [avatar_url] are NULL, [is_admin] is
    false. *)
Definition createUser (username password email fullName : string) : M User.t :=
  fun db =>
    let id := fresh_uuid db in
    if bool_decide (users db !! id = None)
       && bool_decide (getUserByUsername db username = None)
       && bool_decide (getUserByEmail db email = None)
    then
      let u := User.mk id username password email fullName None None false (now db) in
      (inr u, mkDB (<[id := u]> (users db)) (skills db) (sessions db) (reviews db)
                (N.succ (next_uuid db)) (now db))
    else db_error db.

Record RegisterBody := mkRegisterBody {
  rg_username : JsonField;
  rg_password : JsonField;
  rg_email : JsonField;
  rg_fullName : JsonField
}.

Record LoginBody := mkLoginBody {
  lg_username : JsonField;
  lg_password : JsonField
}.

Section Auth.

(** [z.string().email()] *)
Variable is_email : string -> bool.
(** [bcrypt.compare(password, hash)] *)
Variable bcrypt_compare : string -> string -> bool.

(** [registerSchema.safeParse(req.body)] *)
Definition parseRegister (b : RegisterBody) : option (string * string * string * string) :=
  username ← zstring (rg_username b);
  guard (3 <= String.length username <= 20)%nat;;
  password ← zstring (rg_password b);
  guard (8 <= String.length password)%nat;;
  email ← zstring (rg_email b);
  guard (is_email email = true);;
  fullName ← zstring (rg_fullName b);
  guard (2 <= String.length fullName)%nat;;
  Some (username, password, email, fullName).

(** [hashed] is what [bcrypt.hash(password, 10)] returned for this request
    (it draws a fresh salt).  The [errors] field of the first 400 is not
    modelled. *)
Definition register (b : RegisterBody) (hashed : string) : M (Response * option string) :=
  match parseRegister b with
  | None => exit (respond 400 "Invalid input")
  | Some (username, _, email, fullName) =>
      u1 ← read (fun db => getUserByUsername db username);
      (if bool_decide (is_Some u1)
       then exit (respond 400 "Username already taken") else ret tt);;
      u2 ← read (fun db => getUserByEmail db email);
      (if bool_decide (is_Some u2)
       then exit (respond 400 "Email already registered") else ret tt);;
      user ← createUser username hashed email fullName;
      ret (mkResponse 201 (BAuthUser (user_json_without_password user)), Some (User.id user))
  end.

Definition login (b : LoginBody) : M (Response * option string) :=
  match zstring (lg_username b), zstring (lg_password b) with
  | Some username, Some password =>
      ou ← read (fun db => getUserByUsername db username);
      match ou with
      | None => exit (respond 401 "Invalid username or password")
      | Some user =>
          if bcrypt_compare password (User.password user)
          then ret (mkResponse 200 (BAuthUser (user_json_without_password user)),
                    Some (User.id user))
          else exit (respond 401 "Invalid username or password")
      end
  | _, _ => exit (respond 400 "Invalid input")
  end.

(* ------------------------------------------------------------------ *)
(** ** The route table of [registerRoutes] *)

Inductive Request :=
  | RRegister (b : RegisterBody) (hashed : string)
  | RLogin (b : LoginBody)
  | RMe
  | RMySkills
  | RPostSkill (b : SkillBody)
  | RDeleteSkill (id : string)
  | RSearch (q category : option string)
  | RMySessions
  | RRequestSession (b : SessionRequestBody)
  | RAdminUsers
  | RAdminSetAdmin (id : string) (isAdmin : FlagField)
  | RAdminDeleteUser (id : string)
  | RAdminStats
  | RPatchSession (id : string) (status : option string)
  | RPostReview (b : ReviewBody)
  | RReviews (userId : string)
  | RUserStats (id : string).

Definition no_session (h : M Response) : M (Response * option string) :=
  r ← h; ret (r, None).

(** A request with the [userId] of its cookie session. *)
Definition handle (userId : option string) (req : Request) : M (Response * option string) :=
  match req with
  | RRegister b hashed => register b hashed
  | RLogin b => login b
  | RMe => no_session (getMe userId)
  | RMySkills => no_session (getMySkills userId)
  | RPostSkill b => no_session (postSkill userId b)
  | RDeleteSkill id => no_session (deleteSkillRoute userId id)
  | RSearch q c => no_session (getSearch q c)
  | RMySessions => no_session (getMySessions userId)
  | RRequestSession b => no_session (requestSession userId b)
  | RAdminUsers => no_session (adminListUsers userId)
  | RAdminSetAdmin id f => no_session (adminSetAdmin userId id f)
  | RAdminDeleteUser id => no_session (adminDeleteUser userId id)
  | RAdminStats => no_session (adminStats userId)
  | RPatchSession id st => no_session (patchSession userId id st)
  | RPostReview b => no_session (postReview userId b)
  | RReviews uid => no_session (read (fun db => mkResponse 200 (BReviews (getReviewsByUserId db uid))))
  | RUserStats id => no_session (getUserStats id)
  end.

End Auth.

(** The requests that only read the database. *)
Definition read_only (req : Request) : bool :=
  match req with
  | RLogin _ | RMe | RMySkills | RSearch _ _ | RMySessions | RAdminUsers
  | RAdminStats | RReviews _ | RUserStats _ => true
  | _ => false
  end.

(* ------------------------------------------------------------------ *)
(** ** Integrity of the stored tables

    What the schema makes PostgreSQL enforce: each row stored under its
    primary key, every foreign key resolving, and the [unique] columns of
    [users]. *)
Definition db_ok (db : DB) : Prop :=
  (forall i u, users db !! i = Some u -> User.id u = i) /\
  (forall i j u v, users db !! i = Some u -> users db !! j = Some v ->
     User.username u = User.username v -> i = j) /\
  (forall i j u v, users db !! i = Some u -> users db !! j = Some v ->
     User.email u = User.email v -> i = j) /\
  (forall i k, skills db !! i = Some k -> Skill.id k = i /\ is_Some (users db !! Skill.userId k)) /\
  (forall i s, sessions db !! i = Some s ->
     Session.id s = i /\ is_Some (users db !! Session.requesterId s) /\
     is_Some (users db !! Session.providerId s) /\ is_Some (skills db !! Session.skillId s)) /\
  (forall r, In r (reviews db) ->
     is_Some (sessions db !! Review.sessionId r) /\ is_Some (users db !! Review.reviewerId r) /\
     is_Some (users db !! Review.revieweeId r)).

(* ------------------------------------------------------------------ *)
(** ** Client pages *)

(** [SessionCard] (Dashboard.tsx): the statuses its buttons send for the
    signed-in user [me]. *)
Definition card_actions (s : Session.t) (me : string) : list string :=
  let isRequester := bool_decide (Session.requesterId s = me) in
  let isProvider := bool_decide (Session.providerId s = me) in
  (if bool_decide (Session.status s = "pending") && isProvider
   then ["accepted"; "cancelled"] else []) ++
  (if bool_decide (Session.status s = "accepted") && isProvider
   then ["completed"] else []) ++
  (if bool_decide (Session.status s = "pending") && isRequester
   then ["cancelled"] else []).

(** The card shows [Leave Review] on a completed session. *)
Definition card_can_review (s : Session.t) : bool :=
  bool_decide (Session.status s = "completed").

(** [submitReview] (Dashboard.tsx) with the chosen star and comment. *)
Definition submitReview_body (s : Session.t) (me : string) (star : Z) (comment : string) :
    ReviewBody :=
  let revieweeId := if bool_decide (Session.requesterId s = me)
                    then Session.providerId s else Session.requesterId s in
  mkReviewBody (Some (Session.id s)) (Some revieweeId) (JNumber (inject_Z star)) (Some comment).

(** [filteredSkills] of the Search page (Admin.tsx). *)
Definition filteredSkills (me : option string) (l : list SkillWithUser) : list SkillWithUser :=
  List.filter (fun x => bool_decide (Skill.type (swu_skill x) = "offering")
                        && negb (bool_decide (Some (Skill.userId (swu_skill x)) = me))) l.

(** The body the request dialog posts for a displayed skill. *)
Definition request_body (x : SkillWithUser) (message : string) : SessionRequestBody :=
  mkSessionRequestBody (FString (Skill.id (swu_skill x))) (FString (Skill.userId (swu_skill x)))
    (FString message).

(** A status the route recognises. *)
Definition recognised (st : string) : Prop :=
  st = "accepted" \/ st = "completed" \/ st = "cancelled".

(** The rating the review gate should admit: a JSON number that is an integer
    between 1 and 5. *)
Definition int_in_1_5 (v : JsonValue) : bool :=
  match v with
  | JNumber q => Pos.eqb (Qden (Qred q)) 1 && Qle_bool 1 q && Qle_bool q 5
  | JNotNumber => false
  end.

(** Search, in the words of the specification: [hay] contains [query]
    ignoring case; a row of the skill table joined with its owner; and the
    filters, each applying only when its parameter is given (non-empty). *)
Definition contains_ci (hay query : string) : bool :=
  includes (toLowerCase hay) (toLowerCase query).

Definition joined_row (db : DB) (x : SkillWithUser) : Prop :=
  exists k s u, skills db !! k = Some s /\ users db !! Skill.userId s = Some u /\
    x = mkSkillWithUser s (user_json u).

Definition search_matches (query category : option string) (x : SkillWithUser) : Prop :=
  (truthy query = true ->
     contains_ci (Skill.name (swu_skill x)) (default "" query) = true \/
     exists d, Skill.description (swu_skill x) = Some d /\
       contains_ci d (default "" query) = true) /\
  (truthy category = true -> Skill.category (swu_skill x) = default "" category).

(** The sum of the ratings a user received. *)
Definition sum_ratings (reviews : list Review.t) : Z :=
  fold_right (fun r acc => (Review.rating r + acc)%Z) 0%Z reviews.

(* ------------------------------------------------------------------ *)
(** ** Example data *)

(** Alice (A) asked Bob (B) for sessions on his Python skill; Carol (C)
    takes part in none of them. *)
Definition alice : User.t := User.mk "A" "alice" "$2b$10$alicehash" "a@ex.org" "Alice" None None false 1.
Definition bob : User.t := User.mk "B" "bob" "$2b$10$bobhash" "b@ex.org" "Bob" None None false 2.
Definition carol : User.t := User.mk "C" "carol" "$2b$10$carolhash" "c@ex.org" "Carol" None None false 3.
Definition dave : User.t := User.mk "D" "dave" "$2b$10$davehash" "d@ex.org" "Dave" None None true 4.

Definition python_skill : Skill.t :=
  Skill.mk "k1" "B" "Python Programming" None "Programming" "offering" None 5.
Definition guitar_skill : Skill.t :=
  Skill.mk "k2" "B" "Guitar" (Some "Acoustic strings") "Music" "offering" None 7.

Definition session_with_status (id status : string) : Session.t :=
  Session.mk id "A" "B" "k1" status None (Some "Teach me loops") 10.

Definition example_db : DB :=
  mkDB (<["A" := alice]> (<["B" := bob]> (<["C" := carol]> ∅)))
    (<["k1" := python_skill]> (<["k2" := guitar_skill]> ∅))
    (<["s1" := session_with_status "s1" "completed"]>
      (<["s2" := session_with_status "s2" "accepted"]>
        (<["s3" := session_with_status "s3" "pending"]> ∅)))
    [] 0 100.

(** The example data with an administrator, Dave (D). *)
Definition admin_db : DB :=
  mkDB (<["D" := dave]> (users example_db)) (skills example_db) (sessions example_db)
    (reviews example_db) (next_uuid example_db) (now example_db).

(** Three five-star reviews Bob received. *)
Definition five_star_reviews : list Review.t :=
  [Review.mk "r1" "s1" "A" "B" 5 None 20;
   Review.mk "r2" "s4" "C" "B" 5 None 21;
   Review.mk "r3" "s5" "A" "B" 5 None 22].

(** The review Alice would send about Bob for session [s1]. *)
Definition review_body (revieweeId : string) (rating : JsonValue) : ReviewBody :=
  mkReviewBody (Some "s1") (Some revieweeId) rating (Some "Great teacher").

(** A second [alice] with a new e-mail address. *)
Definition alice_again : RegisterBody :=
  mkRegisterBody (FString "alice") (FString "password1") (FString "x@ex.org") (FString "Alice2").

(** A new user, Erin. *)
Definition erin_signup : RegisterBody :=
  mkRegisterBody (FString "erin") (FString "password1") (FString "e@ex.org") (FString "Erin").

(** The callers [requireAdmin] turns away: no login (401), or a login whose
    stored user is missing or not an admin (403). *)
Definition admin_denied (db : DB) (uid : option string) (resp : Response) : Prop :=
  (uid = None /\ resp = respond 401 "Unauthorized") \/
  (exists me, uid = Some me /\ (forall u, users db !! me = Some u -> User.isAdmin u = false) /\
              resp = respond 403 "Forbidden").

(* ================================================================== *)
(** * Proofs *)

(** ** Unfolding the handler monad *)

Ltac unfold_M :=
  unfold run, mbind, M_bind, mret, M_ret, requireAuth, getSession,
    updateSession, createReview in *;
  unfold bind, ret, exit, read in *;
  cbn [default from_option Datatypes.id] in *.

Lemma is_update_status_spec (st : string) :
  is_update_status (Some st) = true <-> recognised st.
Proof.
  unfold is_update_status, recognised. rewrite bool_decide_eq_true.
  rewrite !elem_of_cons, elem_of_nil. tauto.
Qed.

(** The PATCH handler once the session is found: what it does with the
    status and the caller. *)
Lemma patchSession_found (db : DB) (id me st : string) (s : Session.t) :
  sessions db !! id = Some s ->
  run (patchSession (Some me) id (Some st)) db =
  if is_update_status (Some st) then
    if bool_decide (st = "accepted") || bool_decide (st = "completed") then
      if bool_decide (Session.providerId s <> me) then
        (respond 403 "Only the provider can update this session", db)
      else (mkResponse 200 (BSession (Some (set_status st s))),
            mkDB (users db) (skills db) (<[id := set_status st s]> (sessions db))
              (reviews db) (next_uuid db) (now db))
    else
      if bool_decide (Session.providerId s <> me)
         && bool_decide (Session.requesterId s <> me) then
        (respond 403 "Not authorized", db)
      else (mkResponse 200 (BSession (Some (set_status st s))),
            mkDB (users db) (skills db) (<[id := set_status st s]> (sessions db))
              (reviews db) (next_uuid db) (now db))
  else (respond 400 "Invalid status", db).
Proof.
  intros Hs. unfold patchSession. unfold_M. cbn [default].
  destruct (is_update_status (Some st)) eqn:Hst; [|reflexivity].
  rewrite Hs.
  apply is_update_status_spec in Hst.
  destruct (bool_decide (st = "accepted") || bool_decide (st = "completed")) eqn:Hac.
  - destruct (bool_decide (Session.providerId s <> me)); [reflexivity|].
    rewrite Hs. reflexivity.
  - assert (st = "cancelled") as ->.
    { destruct Hst as [-> | [-> | ->]]; done. }
    rewrite bool_decide_eq_true_2 by done.
    destruct (bool_decide (Session.providerId s <> me)
              && bool_decide (Session.requesterId s <> me)); [reflexivity|].
    rewrite Hs. reflexivity.
Qed.

Lemma patchSession_missing (db : DB) (id me st : string) :
  sessions db !! id = None ->
  run (patchSession (Some me) id (Some st)) db =
  if is_update_status (Some st) then (respond 404 "Session not found", db)
  else (respond 400 "Invalid status", db).
Proof.
  intros Hs. unfold patchSession. unfold_M.
  destruct (is_update_status (Some st)); [|reflexivity].
  rewrite Hs. reflexivity.
Qed.

Ltac decide_strings :=
  repeat (case_bool_decide; try congruence); try done.

(** C2. For an existing session and an authenticated caller: a request to
    move it to [accepted] or [completed] by anyone but the provider gets 403
    and changes nothing; a request to move it to [cancelled] by anyone but
    the requester or the provider gets 403 and changes nothing; and a
    request that succeeds (200) came from the provider for [accepted] and
    [completed], and from one of the two participants for [cancelled]. *)
Theorem patchSession_actor_authorization (db : DB) (id me st : string)
    (s : Session.t) :
  sessions db !! id = Some s ->
  ((st = "accepted" \/ st = "completed") -> me <> Session.providerId s ->
   run (patchSession (Some me) id (Some st)) db =
     (respond 403 "Only the provider can update this session", db)) /\
  (st = "cancelled" -> me <> Session.providerId s -> me <> Session.requesterId s ->
   run (patchSession (Some me) id (Some st)) db = (respond 403 "Not authorized", db)) /\
  (code (fst (run (patchSession (Some me) id (Some st)) db)) = 200%Z ->
   ((st = "accepted" \/ st = "completed") /\ me = Session.providerId s) \/
   (st = "cancelled" /\ (me = Session.providerId s \/ me = Session.requesterId s))).
Proof.
  intros Hs. rewrite !(patchSession_found _ _ _ _ _ Hs).
  split; [|split].
  - intros Hst Hme.
    rewrite (proj2 (is_update_status_spec st)) by (unfold recognised; tauto).
    destruct Hst as [-> | ->]; decide_strings.
  - intros -> Hp Hr. unfold is_update_status. decide_strings.
    exfalso. apply H. set_solver.
  - destruct (is_update_status (Some st)) eqn:Hst; [|done].
    apply is_update_status_spec in Hst.
    destruct Hst as [-> | [-> | ->]]; decide_strings; cbn; intros _;
      repeat match goal with H : ¬ (_ ≠ _) |- _ => apply dec_stable in H end;
      subst; intuition auto.
Qed.

Lemma patchSession_unauthenticated (db : DB) (id : string) (st : option string) :
  run (patchSession None id st) db = (respond 401 "Unauthorized", db).
Proof. reflexivity. Qed.

(** C1. The route never looks at the current status: a participant can cancel
    a [completed] session and an [accepted] one, and the provider can move a
    [completed] session back to [accepted]. *)
Theorem patchSession_ignores_current_status :
  (let '(r, db') := run (patchSession (Some "A") "s1" (Some "cancelled")) example_db in
   code r = 200%Z /\
   sessions db' !! "s1" = Some (session_with_status "s1" "cancelled")) /\
  (let '(r, db') := run (patchSession (Some "A") "s2" (Some "cancelled")) example_db in
   code r = 200%Z /\
   sessions db' !! "s2" = Some (session_with_status "s2" "cancelled")) /\
  (let '(r, db') := run (patchSession (Some "B") "s1" (Some "accepted")) example_db in
   code r = 200%Z /\
   sessions db' !! "s1" = Some (session_with_status "s1" "accepted")).
Proof. vm_compute. repeat split. Qed.

(** C6 (as stated, refuted). A missing session with an unrecognised target
    status gets 400, not 404: the status is validated before the lookup. *)
Lemma patchSession_missing_unrecognised_400 :
  sessions example_db !! "s9" = None /\
  code (fst (run (patchSession (Some "A") "s9" (Some "pending")) example_db)) = 400%Z.
Proof. vm_compute. split; reflexivity. Qed.

(** C6 (amended). For an authenticated caller, a session id absent from the
    store and a recognised target status ([accepted], [completed] or
    [cancelled]), the route answers 404 and changes nothing.  An
    unrecognised or missing target status is answered with 400 and changes
    nothing, for every id, whether or not the session exists: the status is
    validated before the session is looked up. *)
Theorem patchSession_missing_session_404 (db : DB) (id me st : string) :
  (sessions db !! id = None -> recognised st ->
   run (patchSession (Some me) id (Some st)) db = (respond 404 "Session not found", db)) /\
  (~ recognised st ->
   run (patchSession (Some me) id (Some st)) db = (respond 400 "Invalid status", db)) /\
  run (patchSession (Some me) id None) db = (respond 400 "Invalid status", db).
Proof.
  split; [|split].
  - intros Hs Hst. rewrite (patchSession_missing _ _ _ _ Hs).
    apply is_update_status_spec in Hst. rewrite Hst. reflexivity.
  - intros Hst. unfold patchSession. unfold_M.
    destruct (is_update_status (Some st)) eqn:Hu; [|reflexivity].
    exfalso. apply Hst, is_update_status_spec, Hu.
  - reflexivity.
Qed.

(** C9. A status update that succeeds writes the target status into the
    session and nothing else: every other column of the row is as before,
    no other session row changes, and the other tables are untouched. *)
Theorem patchSession_frame (db db' : DB) (id me st : string) (r : Response) :
  run (patchSession (Some me) id (Some st)) db = (r, db') -> code r = 200%Z ->
  exists s s',
    sessions db !! id = Some s /\
    sessions db' = <[id := s']> (sessions db) /\
    Session.status s' = st /\
    Session.id s' = Session.id s /\
    Session.requesterId s' = Session.requesterId s /\
    Session.providerId s' = Session.providerId s /\
    Session.skillId s' = Session.skillId s /\
    Session.scheduledAt s' = Session.scheduledAt s /\
    Session.message s' = Session.message s /\
    Session.createdAt s' = Session.createdAt s /\
    users db' = users db /\ skills db' = skills db /\ reviews db' = reviews db /\
    next_uuid db' = next_uuid db /\ now db' = now db.
Proof.
  intros H Hc. destruct (sessions db !! id) as [s|] eqn:Hs.
  - rewrite (patchSession_found _ _ _ _ _ Hs) in H.
    repeat match type of H with context [if ?b then _ else _] => destruct b end;
      injection H as <- <-; cbn in Hc; try discriminate;
      exists s, (set_status st s); cbn; repeat split.
  - rewrite (patchSession_missing _ _ _ _ Hs) in H.
    destruct (is_update_status (Some st)); injection H as <- <-; discriminate.
Qed.

(** ** The review gate *)

(** Every outcome of [POST /api/reviews]: either nothing is written and the
    answer is not 201, or every check passed, the rating is an integer the
    column accepts, and exactly one row was appended to [reviews]. *)
Lemma postReview_cases (db : DB) (uid : option string) (b : ReviewBody) :
  let '(r, db') := run (postReview uid b) db in
  (db' = db /\ code r <> 201%Z) \/
  exists me sid rid q s,
    uid = Some me /\ rb_sessionId b = Some sid /\ rb_revieweeId b = Some rid /\
    rb_rating b = JNumber q /\ sid <> "" /\ rid <> "" /\
    Qle_bool 1 q = true /\ Qle_bool q 5 = true /\ Qden (Qred q) = 1%positive /\
    sessions db !! sid = Some s /\ Session.status s = "completed" /\
    (me = Session.requesterId s \/ me = Session.providerId s) /\
    (rid = Session.requesterId s \/ rid = Session.providerId s) /\
    r = mkResponse 201 (BReview (review_row db sid me rid q (rb_comment b))) /\
    db' = mkDB (users db) (skills db) (sessions db)
            (reviews db ++ [review_row db sid me rid q (rb_comment b)])
            (N.succ (next_uuid db)) (now db).
Proof.
  unfold postReview. unfold_M.
  destruct uid as [me|]; [|left; split; [reflexivity|discriminate]].
  destruct b as [[sid|] [rid|] [q|] com]; cbn;
    try (left; split; [reflexivity|discriminate]).
  repeat (match goal with
          | |- context [match sessions ?d !! ?k with _ => _ end] =>
              destruct (sessions d !! k) as [s|] eqn:?
          | |- context [if ?c then _ else _] => destruct c eqn:?
          | |- context [match Qden (Qred ?x) with _ => _ end] =>
              destruct (Qden (Qred x)) eqn:?
          end; cbn);
    try (left; split; [reflexivity|discriminate]).
  right. exists me, sid, rid, q, s.
  rewrite !orb_false_iff, !negb_false_iff, !bool_decide_eq_true in Heqb.
  rewrite bool_decide_eq_false in Heqb0. apply dec_stable in Heqb0.
  rewrite andb_false_iff, !bool_decide_eq_false in Heqb1, Heqb2.
  assert (Qden (Qred q) = 1%positive) as Hd.
  { destruct (Qden (Qred q)); done. }
  destruct Heqb as [[[? ?] ?] ?].
  repeat split; try done.
  - destruct Heqb1 as [Hr|Hr]; apply dec_stable in Hr; auto.
  - destruct Heqb2 as [Hr|Hr]; apply dec_stable in Hr; auto.
Qed.

(** C3 (code defect). The check meant to make the reviewee "the other party"
    only asks that the reviewee be a participant: Alice, the requester of
    the completed session [s1], gets 201 for a review of herself, and the
    row with reviewer = reviewee = Alice is stored. *)
Theorem postReview_accepts_self_review :
  let '(r, db') := run (postReview (Some "A") (review_body "A" (JNumber 5))) example_db in
  code r = 201%Z /\
  exists rev, body r = BReview rev /\ Review.reviewerId rev = "A" /\
    Review.revieweeId rev = "A" /\ reviews db' = [rev].
Proof. vm_compute. split; [reflexivity|]. eexists. repeat split. Qed.

(** C7. A review request whose rating is not an integer between 1 and 5 is
    never answered 201 and writes nothing: a non-number or a number outside
    [1, 5] is refused by the route (400), and a fractional rating inside
    [1, 5] that passes the route reaches the insert, which the [integer]
    column refuses (500). *)
Theorem postReview_rejects_bad_rating (db db' : DB) (uid : option string)
    (b : ReviewBody) (r : Response) :
  int_in_1_5 (rb_rating b) = false ->
  run (postReview uid b) db = (r, db') ->
  code r <> 201%Z /\ db' = db.
Proof.
  intros Hbad Hrun. pose proof (postReview_cases db uid b) as Hc.
  rewrite Hrun in Hc.
  destruct Hc as [[-> Hc]|(me & sid & rid & q & s & _ & _ & _ & Hq & _ & _ & H1 & H5 & Hd & _)];
    [done|].
  exfalso. rewrite Hq in Hbad. cbn in Hbad. rewrite Hd, H1, H5 in Hbad. done.
Qed.

Lemma postReview_rejects_bad_rating_witness :
  int_in_1_5 (rb_rating (review_body "B" (JNumber (9 # 2)))) = false /\
  code (fst (run (postReview (Some "A") (review_body "B" (JNumber (9 # 2)))) example_db))
    <> 201%Z /\
  snd (run (postReview (Some "A") (review_body "B" (JNumber (9 # 2)))) example_db)
    = example_db.
Proof.
  split; [reflexivity|].
  apply (postReview_rejects_bad_rating example_db _ (Some "A")
           (review_body "B" (JNumber (9 # 2))) _).
  - reflexivity.
  - apply surjective_pairing.
Defined.

(** The fractional rating of the witness above is the one the route lets
    through: it fails at the insert, with a 500. *)
Lemma postReview_fractional_rating_500 :
  code (fst (run (postReview (Some "A") (review_body "B" (JNumber (9 # 2)))) example_db))
    = 500%Z.
Proof. vm_compute. reflexivity. Qed.

(** C8. A review is created (201) only when the caller is authenticated, the
    referenced session exists with status exactly [completed], and the caller
    is its requester or its provider; the only write is one review row
    appended to [reviews]: the sessions (statuses included), users and
    skills are as before. *)
Theorem postReview_success (db db' : DB) (uid : option string) (b : ReviewBody)
    (r : Response) :
  run (postReview uid b) db = (r, db') -> code r = 201%Z ->
  exists me sid s rev,
    uid = Some me /\ rb_sessionId b = Some sid /\
    sessions db !! sid = Some s /\ Session.status s = "completed" /\
    (me = Session.requesterId s \/ me = Session.providerId s) /\
    body r = BReview rev /\ reviews db' = (reviews db ++ [rev])%list /\
    sessions db' = sessions db /\ users db' = users db /\ skills db' = skills db.
Proof.
  intros Hrun Hcode. pose proof (postReview_cases db uid b) as Hc.
  rewrite Hrun in Hc.
  destruct Hc as [[_ Hc]|(me & sid & rid & q & s & Hu & Hs & _ & _ & _ & _ & _ & _ & _ &
                           Hss & Hst & Hme & _ & -> & ->)]; [done|].
  exists me, sid, s, (review_row db sid me rid q (rb_comment b)).
  repeat split; done.
Qed.

Lemma postReview_success_witness :
  let '(r, db') := run (postReview (Some "A") (review_body "B" (JNumber 5))) example_db in
  code r = 201%Z /\
  exists me sid s rev,
    Some "A" = Some me /\ rb_sessionId (review_body "B" (JNumber 5)) = Some sid /\
    sessions example_db !! sid = Some s /\ Session.status s = "completed" /\
    (me = Session.requesterId s \/ me = Session.providerId s) /\
    body r = BReview rev /\ reviews db' = (reviews example_db ++ [rev])%list /\
    sessions db' = sessions example_db /\ users db' = users example_db /\
    skills db' = skills example_db.
Proof.
  destruct (run (postReview (Some "A") (review_body "B" (JNumber 5))) example_db)
    as [r db'] eqn:Hrun.
  assert (Hc : code r = 201%Z).
  { vm_compute in Hrun. injection Hrun as <- <-. reflexivity. }
  split; [exact Hc|].
  exact (postReview_success example_db db' (Some "A") _ r Hrun Hc).
Defined.

(** ** Skill search *)

Lemma in_skills_join_users (db : DB) (x : SkillWithUser) :
  In x (skills_join_users db) <-> joined_row db x.
Proof.
  unfold skills_join_users, joined_row.
  rewrite <-list_elem_of_In, list_elem_of_omap. split.
  - intros (s & Hs & Hx). apply fmap_Some in Hx as (u & Hu & ->).
    apply list_elem_of_In, in_map_iff in Hs as ([k s'] & <- & Hk).
    apply list_elem_of_In, elem_of_map_to_list in Hk.
    exists k, s', u. done.
  - intros (k & s & u & Hk & Hu & ->). exists s. split.
    + apply list_elem_of_In, in_map_iff. exists (k, s). split; [done|].
      apply list_elem_of_In, elem_of_map_to_list. done.
    + rewrite Hu. done.
Qed.

Lemma in_baseQuery (db : DB) (x : SkillWithUser) :
  In x (baseQuery db) <-> joined_row db x.
Proof.
  rewrite <-in_skills_join_users. unfold baseQuery.
  pose proof (merge_sort_Permutation newer_first (skills_join_users db)) as Hp.
  split; intros H; [apply (Permutation_in _ Hp) | apply (Permutation_in _ (Permutation_sym Hp))];
    exact H.
Qed.

Lemma baseQuery_sorted (db : DB) : Sorted newer_first (baseQuery db).
Proof. apply Sorted_merge_sort. apply _. Qed.

Lemma StronglySorted_filter {A} (R : A -> A -> Prop) (f : A -> bool) (l : list A) :
  StronglySorted R l -> StronglySorted R (List.filter f l).
Proof.
  induction l as [|a l IH]; intros H; cbn; [constructor|].
  inversion H as [|? ? Hl Ha]; subst.
  destruct (f a); [|auto]. constructor; [auto|].
  apply Forall_forall. intros y Hy.
  apply list_elem_of_In, filter_In in Hy as [Hy _]. apply list_elem_of_In in Hy.
  rewrite Forall_forall in Ha. auto.
Qed.

Lemma Sorted_filter_trans (f : SkillWithUser -> bool) (l : list SkillWithUser) :
  Sorted newer_first l -> Sorted newer_first (List.filter f l).
Proof.
  intros H. apply StronglySorted_Sorted, StronglySorted_filter.
  apply Sorted_StronglySorted; [apply newer_first_trans|exact H].
Qed.

Lemma toLowerCase_empty (s : string) : toLowerCase s = "" -> s = "".
Proof. destruct s; [done|discriminate]. Qed.

Lemma includes_empty_hay (n : string) : includes "" n = true -> n = "".
Proof. destruct n; [done|discriminate]. Qed.

(** For a non-empty query, the code's test on a row is the specification's
    case-insensitive containment in the name or the description. *)
Lemma matches_query_spec (query : string) (x : SkillWithUser) :
  query <> "" ->
  matches_query (toLowerCase query) x = true <->
  contains_ci (Skill.name (swu_skill x)) query = true \/
  exists d, Skill.description (swu_skill x) = Some d /\ contains_ci d query = true.
Proof.
  intros Hq. unfold matches_query, contains_ci. rewrite orb_true_iff.
  destruct (Skill.description (swu_skill x)) as [d|]; cbn.
  - rewrite andb_true_iff, bool_decide_eq_true. split.
    + intros [H|[_ H]]; [left; exact H|right; eauto].
    + intros [H|(d' & Hd & H)]; [left; exact H|right].
      injection Hd as <-. split; [|exact H].
      intros ->. apply Hq, toLowerCase_empty, includes_empty_hay. exact H.
  - split; [intros [H|H]; [left; exact H|discriminate]|].
    intros [H|(d' & Hd & _)]; [left; exact H|discriminate].
Qed.

Lemma truthy_true (o : option string) : truthy o = true -> exists s, o = Some s /\ s <> "".
Proof.
  destruct o as [s|]; cbn; [|discriminate]. rewrite bool_decide_eq_true. eauto.
Qed.

Lemma in_search_result (db : DB) (q c : option string) (x : SkillWithUser) :
  In x (filter_category c (filter_query q (baseQuery db))) <->
  joined_row db x /\ search_matches q c x.
Proof.
  unfold filter_category, filter_query, search_matches.
  destruct (truthy q) eqn:Hq, (truthy c) eqn:Hc;
    rewrite ?filter_In, ?filter_In, ?in_baseQuery, ?bool_decide_eq_true.
  all: try (destruct (truthy_true q Hq) as (qs & -> & Hqs); cbn;
            rewrite (matches_query_spec qs x Hqs)).
  all: intuition discriminate.
Qed.

(** C4. Every skill [GET /api/search] returns carries its owner's user row
    as stored, [password] column (the bcrypt hash) included, whereas
    [GET /api/auth/me] answers with the user's [password] removed. *)
Theorem search_returns_owner_password (db : DB) (q c uid : option string) :
  (exists l, fst (run (getSearch q c) db) = mkResponse 200 (BSkills l) /\
     Forall (fun x => exists u,
               users db !! Skill.userId (swu_skill x) = Some u /\
               swu_user x = user_json u /\
               uj_password (swu_user x) = Some (User.password u)) l) /\
  match fst (run (getMe uid) db) with
  | mkResponse _ (BAuthUser ju) => uj_password ju = None
  | _ => True
  end.
Proof.
  split.
  - exists (filter_category c (filter_query q (baseQuery db))). split; [reflexivity|].
    apply Forall_forall. intros x Hx. apply list_elem_of_In, in_search_result in Hx.
    destruct Hx as [(k & s & u & _ & Hu & ->) _]. exists u. done.
  - destruct uid as [uid|]; [|done]. unfold getMe. unfold_M.
    destruct (users db !! uid); done.
Qed.

(** C10 (as stated, refuted). [GET /api/search?category=] passes an empty
    category, which the code treats as absent: the Guitar skill, of category
    [Music], is returned although its category is not the given one. *)
Lemma search_empty_category_unfiltered :
  exists l, fst (run (getSearch None (Some "")) example_db) = mkResponse 200 (BSkills l) /\
    Exists (fun x => Skill.category (swu_skill x) <> "") l.
Proof.
  eexists. split; [vm_compute; reflexivity|].
  apply Exists_cons_hd. vm_compute. discriminate.
Qed.

(** C10 (amended). Search returns, newest first, exactly the rows of the
    skill table joined with their owner that contain the query in the name
    or the description ignoring case (when the query is non-empty) and
    whose category is the given one (when the category is non-empty); an
    absent or empty query and category leave the whole ordered join. *)
Theorem searchSkills_spec (db : DB) (q c : option string) :
  exists l, fst (run (getSearch q c) db) = mkResponse 200 (BSkills l) /\
    Sorted newer_first l /\
    (forall x, In x l <-> joined_row db x /\ search_matches q c x) /\
    (truthy q = false -> truthy c = false -> l = baseQuery db).
Proof.
  exists (filter_category c (filter_query q (baseQuery db))).
  split; [reflexivity|]. split; [|split].
  - unfold filter_category, filter_query.
    destruct (truthy q), (truthy c);
      repeat apply Sorted_filter_trans; apply baseQuery_sorted.
  - intros x. apply in_search_result.
  - intros Hq Hc. unfold filter_category, filter_query. rewrite Hq, Hc. reflexivity.
Qed.

(** ** Badges *)

Lemma fold_ratings_eq (l : list Review.t) (a : Q) :
  (fold_left (fun sum r => sum + inject_Z (Review.rating r)) l a ==
   a + inject_Z (sum_ratings l))%Q.
Proof.
  revert a. induction l as [|r l IH]; intros a; cbn.
  - rewrite Qplus_0_r. reflexivity.
  - rewrite IH, inject_Z_plus. fold (sum_ratings l). rewrite Qplus_assoc. reflexivity.
Qed.

(** With at least one review, the average is at least 4.5 exactly when
    twice the sum of the ratings is at least nine times their number. *)
Lemma averageRating_ge (reviews : list Review.t) :
  (1 <= length reviews)%nat ->
  Qle_bool (9 # 2) (averageRating reviews) = true <->
  (9 * Z.of_nat (length reviews) <= 2 * sum_ratings reviews)%Z.
Proof.
  intros Hlen. unfold averageRating.
  replace (0 <? length reviews)%nat with true by (symmetry; apply Nat.ltb_lt; lia).
  rewrite Qle_bool_iff, fold_ratings_eq, Qplus_0_l.
  assert (Hpos : (0 < Z.of_nat (length reviews))%Z) by lia.
  destruct (Z.of_nat (length reviews)) as [|p|p]; [lia| |lia].
  unfold Qle, Qdiv, Qmult, Qinv, inject_Z. cbn. lia.
Qed.

Lemma in_statsBadges_highly_rated (skills : list Skill.t) (sessions : list Session.t)
    (reviews : list Review.t) :
  In "highly_rated" (statsBadges skills sessions reviews) <->
  Qle_bool (9 # 2) (averageRating reviews) && (3 <=? length reviews)%nat = true.
Proof.
  unfold statsBadges. rewrite !in_app_iff.
  destruct (5 <=? completedCount sessions)%nat, (3 <=? offeringCount skills)%nat,
    (1 <=? length skills)%nat,
    (Qle_bool (9 # 2) (averageRating reviews) && (3 <=? length reviews)%nat);
    cbn; intuition (try discriminate; auto).
Qed.

(** C5 (code bug). The dashboard copies three of the server's badge rules
    and leaves out [highly_rated]: three five-star reviews earn
    [highly_rated] on the server while the dashboard shows no badge.  On any
    skills, sessions and reviews, the dashboard's badges are the server's
    badges with [highly_rated] removed, and the server awards [highly_rated]
    exactly when there are at least 3 reviews whose average rating is at
    least 4.5. *)
Theorem badges_highly_rated_only_on_server :
  (statsBadges [] [] five_star_reviews = ["highly_rated"] /\
   dashboardBadges [] [] = [] /\
   map badge_key (dashboardBadges [] []) <> statsBadges [] [] five_star_reviews) /\
  forall (skills : list Skill.t) (sessions : list Session.t) (reviews : list Review.t),
    map badge_key (dashboardBadges skills sessions) =
      List.filter (fun b => negb (String.eqb b "highly_rated"))
        (statsBadges skills sessions reviews) /\
    (In "highly_rated" (statsBadges skills sessions reviews) <->
     (3 <= length reviews)%nat /\
     (9 * Z.of_nat (length reviews) <= 2 * sum_ratings reviews)%Z).
Proof.
  split.
  - vm_compute. split; [reflexivity|split; [reflexivity|discriminate]].
  - intros skills sessions reviews. split.
    + unfold dashboardBadges, statsBadges.
      destruct (5 <=? completedCount sessions)%nat, (3 <=? offeringCount skills)%nat,
        (1 <=? length skills)%nat,
        (Qle_bool (9 # 2) (averageRating reviews) && (3 <=? length reviews)%nat);
        reflexivity.
    + rewrite in_statsBadges_highly_rated, andb_true_iff, Nat.leb_le.
      split.
      * intros [Havg H3]. split; [exact H3|]. apply averageRating_ge; [lia|exact Havg].
      * intros [H3 Hsum]. split; [|exact H3]. apply averageRating_ge; [lia|exact Hsum].
Qed.

(** ** Witnesses of the PATCH theorems on the example data *)

(** Carol, who takes no part in the pending session [s3], tries to accept it
    and to cancel it. *)
Lemma patchSession_actor_authorization_witness :
  sessions example_db !! "s3" = Some (session_with_status "s3" "pending") /\
  (("accepted" = "accepted" \/ "accepted" = "completed") ->
   "C" <> Session.providerId (session_with_status "s3" "pending") ->
   run (patchSession (Some "C") "s3" (Some "accepted")) example_db =
     (respond 403 "Only the provider can update this session", example_db)) /\
  ("accepted" = "cancelled" ->
   "C" <> Session.providerId (session_with_status "s3" "pending") ->
   "C" <> Session.requesterId (session_with_status "s3" "pending") ->
   run (patchSession (Some "C") "s3" (Some "accepted")) example_db =
     (respond 403 "Not authorized", example_db)) /\
  (code (fst (run (patchSession (Some "C") "s3" (Some "accepted")) example_db)) = 200%Z ->
   (("accepted" = "accepted" \/ "accepted" = "completed") /\
    "C" = Session.providerId (session_with_status "s3" "pending")) \/
   ("accepted" = "cancelled" /\
    ("C" = Session.providerId (session_with_status "s3" "pending") \/
     "C" = Session.requesterId (session_with_status "s3" "pending")))).
Proof.
  split; [reflexivity|].
  apply (patchSession_actor_authorization example_db "s3" "C" "accepted"). reflexivity.
Defined.

Lemma patchSession_missing_session_404_witness :
  sessions example_db !! "s9" = None /\ recognised "cancelled" /\ ~ recognised "pending" /\
  run (patchSession (Some "A") "s9" (Some "cancelled")) example_db =
    (respond 404 "Session not found", example_db) /\
  run (patchSession (Some "A") "s1" (Some "pending")) example_db =
    (respond 400 "Invalid status", example_db) /\
  run (patchSession (Some "A") "s1" None) example_db = (respond 400 "Invalid status", example_db).
Proof.
  assert (Hs : sessions example_db !! "s9" = None) by reflexivity.
  assert (Hr : recognised "cancelled") by (right; right; reflexivity).
  assert (Hn : ~ recognised "pending") by (intros [H|[H|H]]; discriminate).
  split; [exact Hs|]. split; [exact Hr|]. split; [exact Hn|].
  split; [exact (proj1 (patchSession_missing_session_404 example_db "s9" "A" "cancelled") Hs Hr)|].
  destruct (patchSession_missing_session_404 example_db "s1" "A" "pending") as [_ [H2 H3]].
  split; [exact (H2 Hn)|exact H3].
Defined.

(** Bob accepts the pending session [s3]. *)
Lemma patchSession_frame_witness :
  let '(r, db') := run (patchSession (Some "B") "s3" (Some "accepted")) example_db in
  code r = 200%Z /\
  exists s s',
    sessions example_db !! "s3" = Some s /\
    sessions db' = <["s3" := s']> (sessions example_db) /\
    Session.status s' = "accepted" /\
    Session.id s' = Session.id s /\
    Session.requesterId s' = Session.requesterId s /\
    Session.providerId s' = Session.providerId s /\
    Session.skillId s' = Session.skillId s /\
    Session.scheduledAt s' = Session.scheduledAt s /\
    Session.message s' = Session.message s /\
    Session.createdAt s' = Session.createdAt s /\
    users db' = users example_db /\ skills db' = skills example_db /\
    reviews db' = reviews example_db /\
    next_uuid db' = next_uuid example_db /\ now db' = now example_db.
Proof.
  destruct (run (patchSession (Some "B") "s3" (Some "accepted")) example_db)
    as [r db'] eqn:Hrun.
  assert (Hc : code r = 200%Z).
  { vm_compute in Hrun. injection Hrun as <- <-. reflexivity. }
  split; [exact Hc|].
  exact (patchSession_frame example_db db' "s3" "B" "accepted" r Hrun Hc).
Defined.

(* ================================================================== *)
(** * Further properties of the routes *)

Ltac unfold_routes :=
  unfold run_with_session, handle, no_session, register, login, getMe, getMySkills,
    postSkill, deleteSkillRoute, getSearch, searchSkills, getMySessions, requestSession,
    adminListUsers, adminSetAdmin, adminDeleteUser, adminStats, patchSession,
    postReview, getUserStats, requireAdmin, createSkill, createSession, createUser,
    updateUser, modify, db_error in *;
  unfold_M.

Ltac split_all :=
  repeat (match goal with
          | |- context [match ?x with _ => _ end] =>
              lazymatch x with
              | context [fun _ => _] => fail
              | context [match _ with _ => _ end] => fail
              | _ => destruct x eqn:?
              end
          | |- context [if ?c then _ else _] =>
              lazymatch c with
              | context [match _ with _ => _ end] => fail
              | _ => destruct c eqn:?
              end
          end; cbn).

(** X1. Over the whole route table, a response with a status of 400 or more (a
    refused request or the 500 of a failed insert) leaves the database as it
    was and sets no login session. *)
Lemma handle_error_no_write is_email cmp (uid : option string) (req : Request) (db : DB) :
  let '(r, sid, db') := run_with_session (handle is_email cmp uid req) db in
  (400 <= code r)%Z -> db' = db /\ sid = None.
Proof.
  destruct req; unfold_routes; cbn; split_all; cbn; intros; try (split; [reflexivity|reflexivity]); try lia.

Qed.

(** X2. The requests that only read (login, me, my skills, search, my
    sessions, the admin list and stats, reviews of a user, stats of a user)
    return the database unchanged, whatever their outcome. *)
Lemma handle_read_only is_email cmp (uid : option string) (req : Request) (db : DB) :
  read_only req = true -> snd (run_with_session (handle is_email cmp uid req) db) = db.
Proof.
  destruct req; cbn [read_only]; intros H; try discriminate;
    unfold_routes; cbn; split_all; cbn; reflexivity.
Qed.

Lemma db_ok_insert_user (db : DB) (key : string) (u : User.t) n t :
  db_ok db -> users db !! key = None -> User.id u = key ->
  (forall i v, users db !! i = Some v ->
     User.username v <> User.username u /\ User.email v <> User.email u) ->
  db_ok (mkDB (<[key := u]> (users db)) (skills db) (sessions db) (reviews db) n t).
Proof.
  intros (Hid & Hun & Hem & Hsk & Hse & Hre) Hfresh Huid Hnew.
  assert (Hsome : forall j, is_Some (users db !! j) -> is_Some (<[key := u]> (users db) !! j)).
  { intros j [v Hv]. destruct (decide (key = j)) as [->|Hne];
      [rewrite lookup_insert_eq; eauto | rewrite lookup_insert_ne; eauto]. }
  split_and!; cbn.
  - intros i v. destruct (decide (key = i)) as [->|Hne].
    + rewrite lookup_insert_eq. congruence.
    + rewrite lookup_insert_ne by done. apply Hid.
  - intros i j v w Hi Hj Heq.
    apply lookup_insert_Some in Hi as [[<- <-]|[Hi' Hi]], Hj as [[<- <-]|[Hj' Hj]];
      try done.
    + exfalso. apply (proj1 (Hnew j w Hj)). done.
    + exfalso. apply (proj1 (Hnew i v Hi)). done.
    + eauto.
  - intros i j v w Hi Hj Heq.
    apply lookup_insert_Some in Hi as [[<- <-]|[Hi' Hi]], Hj as [[<- <-]|[Hj' Hj]];
      try done.
    + exfalso. apply (proj2 (Hnew j w Hj)). done.
    + exfalso. apply (proj2 (Hnew i v Hi)). done.
    + eauto.
  - intros i k Hk. destruct (Hsk i k Hk) as [? ?]. split; [done|]. apply Hsome; done.
  - intros i s Hs. destruct (Hse i s Hs) as (? & ? & ? & ?). split_and!; try done; apply Hsome; done.
  - intros r Hr. destruct (Hre r Hr) as (? & ? & ?). split_and!; try done; apply Hsome; done.
Qed.

Lemma db_ok_update_user (db : DB) (key : string) (u u' : User.t) n t :
  db_ok db -> users db !! key = Some u -> User.id u' = User.id u ->
  User.username u' = User.username u -> User.email u' = User.email u ->
  db_ok (mkDB (<[key := u']> (users db)) (skills db) (sessions db) (reviews db) n t).
Proof.
  intros (Hid & Hun & Hem & Hsk & Hse & Hre) Hu Hi1 Hi2 Hi3.
  assert (Hsome : forall j, is_Some (users db !! j) -> is_Some (<[key := u']> (users db) !! j)).
  { intros j [v Hv]. destruct (decide (key = j)) as [->|Hne];
      [rewrite lookup_insert_eq; eauto | rewrite lookup_insert_ne; eauto]. }
  assert (Hlk : forall j v, <[key := u']> (users db) !! j = Some v ->
            exists w, users db !! j = Some w /\ User.id v = User.id w /\
              User.username v = User.username w /\ User.email v = User.email w).
  { intros j v Hj. destruct (decide (key = j)) as [->|Hne].
    - rewrite lookup_insert_eq in Hj. injection Hj as <-. eauto.
    - rewrite lookup_insert_ne in Hj by done. eauto. }
  split_and!; cbn.
  - intros i v Hv. destruct (Hlk i v Hv) as (w & Hw & -> & _ & _). eauto.
  - intros i j v w Hi Hj Heq.
    destruct (Hlk i v Hi) as (v' & Hv' & _ & Hv1 & _), (Hlk j w Hj) as (w' & Hw' & _ & Hw1 & _).
    apply (Hun i j v' w'); congruence.
  - intros i j v w Hi Hj Heq.
    destruct (Hlk i v Hi) as (v' & Hv' & _ & _ & Hv1), (Hlk j w Hj) as (w' & Hw' & _ & _ & Hw1).
    apply (Hem i j v' w'); congruence.
  - intros i k Hk. destruct (Hsk i k Hk) as [? ?]. split; [done|]. apply Hsome; done.
  - intros i s Hs. destruct (Hse i s Hs) as (? & ? & ? & ?). split_and!; try done; apply Hsome; done.
  - intros r Hr. destruct (Hre r Hr) as (? & ? & ?). split_and!; try done; apply Hsome; done.
Qed.

Lemma db_ok_insert_skill (db : DB) (key : string) (k : Skill.t) n t :
  db_ok db -> Skill.id k = key -> is_Some (users db !! Skill.userId k) ->
  db_ok (mkDB (users db) (<[key := k]> (skills db)) (sessions db) (reviews db) n t).
Proof.
  intros (Hid & Hun & Hem & Hsk & Hse & Hre) Hk1 Hk2.
  split_and!; cbn; try done.
  - intros i k' Hi. apply lookup_insert_Some in Hi as [[<- <-]|[_ Hi]]; [done|].
    apply (Hsk i k' Hi).
  - intros i s Hs. destruct (Hse i s Hs) as (? & ? & ? & [k' Hk']). split_and!; try done.
    destruct (decide (key = Session.skillId s)) as [<-|Hne];
      [rewrite lookup_insert_eq; eauto | rewrite lookup_insert_ne; eauto].
Qed.

Lemma db_ok_insert_session (db : DB) (key : string) (s : Session.t) n t :
  db_ok db -> Session.id s = key -> is_Some (users db !! Session.requesterId s) ->
  is_Some (users db !! Session.providerId s) -> is_Some (skills db !! Session.skillId s) ->
  db_ok (mkDB (users db) (skills db) (<[key := s]> (sessions db)) (reviews db) n t).
Proof.
  intros (Hid & Hun & Hem & Hsk & Hse & Hre) H1 H2 H3 H4.
  split_and!; cbn; try done.
  - intros i s' Hi. apply lookup_insert_Some in Hi as [[<- <-]|[_ Hi]]; [done|].
    apply (Hse i s' Hi).
  - intros r Hr. destruct (Hre r Hr) as ([s' Hs'] & ? & ?). split_and!; try done.
    destruct (decide (key = Review.sessionId r)) as [<-|Hne];
      [rewrite lookup_insert_eq; eauto | rewrite lookup_insert_ne; eauto].
Qed.

Lemma db_ok_append_review (db : DB) (r : Review.t) n t :
  db_ok db -> is_Some (sessions db !! Review.sessionId r) ->
  is_Some (users db !! Review.reviewerId r) -> is_Some (users db !! Review.revieweeId r) ->
  db_ok (mkDB (users db) (skills db) (sessions db) (reviews db ++ [r])%list n t).
Proof.
  intros (Hid & Hun & Hem & Hsk & Hse & Hre) H1 H2 H3.
  split_and!; cbn; try done.
  intros r' Hr. apply in_app_or in Hr as [Hr|[<-|[]]]; [apply Hre; done|]. done.
Qed.

Lemma db_ok_deleteSkill (db : DB) (key : string) :
  db_ok db -> db_ok (deleteSkill key db).
Proof.
  intros (Hid & Hun & Hem & Hsk & Hse & Hre).
  unfold deleteSkill. split_and!; cbn; try done.
  - intros i k Hi. destruct (decide (key = i)) as [<-|Hne].
    + rewrite lookup_delete_eq in Hi. done.
    + rewrite lookup_delete_ne in Hi by done. apply (Hsk i k Hi).
  - intros i s Hi. apply map_lookup_filter_Some in Hi as [Hi Hf]. cbn in Hf.
    destruct (Hse i s Hi) as (? & ? & ? & [k Hk]). split_and!; try done.
    unfold session_of_skill in Hf. apply Is_true_eq_true, negb_true_iff, bool_decide_eq_false in Hf.
    rewrite lookup_delete_ne by congruence. eauto.
  - intros r Hr. apply filter_In in Hr as [Hr Hf].
    destruct (Hre r Hr) as ([s Hs] & ? & ?). split_and!; try done.
    rewrite Hs in Hf. exists s. apply map_lookup_filter_Some. split; [done|]. cbn. apply Is_true_eq_left. done.
Qed.

Lemma is_Some_delete_ne (m : gmap string User.t) (key j : string) :
  key <> j -> is_Some (m !! j) -> is_Some (delete key m !! j).
Proof. intros Hne H. rewrite lookup_delete_ne by done. exact H. Qed.

Lemma db_ok_deleteUser (db : DB) (key : string) :
  db_ok db -> db_ok (deleteUser key db).
Proof.
  intros (Hid & Hun & Hem & Hsk & Hse & Hre).
  unfold deleteUser. split_and!; cbn.
  - intros i u Hi. apply lookup_delete_Some in Hi as [_ Hi]. eauto.
  - intros i j u v Hi Hj. apply lookup_delete_Some in Hi as [_ Hi], Hj as [_ Hj]. eauto.
  - intros i j u v Hi Hj. apply lookup_delete_Some in Hi as [_ Hi], Hj as [_ Hj]. eauto.
  - intros i k Hi. apply map_lookup_filter_Some in Hi as [Hi Hf]. cbn in Hf.
    apply Is_true_eq_true, negb_true_iff in Hf. unfold skill_of_user in Hf.
    apply bool_decide_eq_false in Hf.
    destruct (Hsk i k Hi) as [? ?]. split; [done|]. apply is_Some_delete_ne; auto.
  - intros i s Hi. apply map_lookup_filter_Some in Hi as [Hi Hf]. cbn in Hf.
    apply Is_true_eq_true, negb_true_iff in Hf. unfold session_of_user in Hf.
    apply orb_false_iff in Hf as [Hf Hk]. apply orb_false_iff in Hf as [Hr Hp].
    apply bool_decide_eq_false in Hr, Hp.
    destruct (Hse i s Hi) as (? & ? & ? & [k Hk']). rewrite Hk' in Hk.
    split_and!; try done; try (apply is_Some_delete_ne; auto).
    exists k. apply map_lookup_filter_Some. split; [done|]. cbn.
    apply Is_true_eq_left. rewrite Hk. done.
  - intros r Hr. apply filter_In in Hr as [Hr Hf].
    apply negb_true_iff in Hf. unfold review_of_user in Hf.
    apply orb_false_iff in Hf as [Hf Hs]. apply orb_false_iff in Hf as [Hr1 Hr2].
    apply bool_decide_eq_false in Hr1, Hr2.
    destruct (Hre r Hr) as ([s Hs'] & ? & ?). rewrite Hs' in Hs.
    split_and!; try (apply is_Some_delete_ne; auto).
    exists s. apply map_lookup_filter_Some. split; [done|]. cbn.
    apply Is_true_eq_left. rewrite Hs. done.
Qed.

Lemma getUserByUsername_None (db : DB) (n : string) :
  getUserByUsername db n = None -> forall i u, users db !! i = Some u -> User.username u <> n.
Proof.
  unfold getUserByUsername. intros H i u Hu Heq.
  assert (Hin : In u (List.filter (fun u => bool_decide (User.username u = n))
                        (map snd (map_to_list (users db))))).
  { apply filter_In. split; [|apply bool_decide_eq_true; done].
    apply in_map_iff. exists (i, u). split; [done|].
    apply list_elem_of_In, elem_of_map_to_list. done. }
  destruct (List.filter _ _); [done|discriminate].
Qed.

Lemma getUserByEmail_None (db : DB) (e : string) :
  getUserByEmail db e = None -> forall i u, users db !! i = Some u -> User.email u <> e.
Proof.
  unfold getUserByEmail. intros H i u Hu Heq.
  assert (Hin : In u (List.filter (fun u => bool_decide (User.email u = e))
                        (map snd (map_to_list (users db))))).
  { apply filter_In. split; [|apply bool_decide_eq_true; done].
    apply in_map_iff. exists (i, u). split; [done|].
    apply list_elem_of_In, elem_of_map_to_list. done. }
  destruct (List.filter _ _); [done|discriminate].
Qed.

Ltac bool_hyps :=
  repeat match goal with
         | H : _ && _ = true |- _ => apply andb_true_iff in H as [? ?]
         | H : _ && _ = false |- _ => apply andb_false_iff in H
         | H : _ || _ = false |- _ => apply orb_false_iff in H as [? ?]
         | H : bool_decide _ = true |- _ => apply bool_decide_eq_true in H
         | H : bool_decide _ = false |- _ => apply bool_decide_eq_false in H
         | H : negb _ = false |- _ => apply negb_false_iff in H
         | H : ~ (_ <> _) |- _ => apply dec_stable in H
         end.

(** X3. Every request of the route table keeps the integrity of the tables:
    rows stored under their primary keys, unique usernames and e-mails, and
    every foreign key resolving (the cascades of the schema included). *)
Lemma handle_db_ok is_email cmp (uid : option string) (req : Request) (db : DB) :
  db_ok db ->
  let '(r, sid, db') := run_with_session (handle is_email cmp uid req) db in db_ok db'.
Proof.
  intros Hok.
  destruct req; unfold_routes; cbn; split_all; cbn; try exact Hok; bool_hyps.
  - (* register *)
    apply db_ok_insert_user; try done.
    intros i v Hv. split.
    + intros Heq. eapply (getUserByUsername_None db s1); [eassumption|exact Hv|exact Heq].
    + intros Heq. eapply (getUserByEmail_None db s0); [eassumption|exact Hv|exact Heq].
  - (* POST /api/skills *)
    apply db_ok_insert_skill; done.
  - (* DELETE /api/skills/:id *)
    apply db_ok_deleteSkill; done.
  - (* POST /api/sessions/request *)
    apply db_ok_insert_session; done.
  - (* PATCH /api/admin/users/:id *)
    eapply db_ok_update_user; try done.
  - (* DELETE /api/admin/users/:id *)
    apply db_ok_deleteUser; done.
  - (* PATCH /api/sessions/:id *)
    pose proof Hok as (_ & _ & _ & _ & Hse & _).
    match goal with H : _ = Some _ |- _ => destruct (Hse _ _ H) as (? & ? & ? & ?) end.
    apply db_ok_insert_session; done.
  - pose proof Hok as (_ & _ & _ & _ & Hse & _).
    match goal with H : _ = Some _ |- _ => destruct (Hse _ _ H) as (? & ? & ? & ?) end.
    apply db_ok_insert_session; done.
  - pose proof Hok as (_ & _ & _ & _ & Hse & _).
    match goal with H : _ = Some _ |- _ => destruct (Hse _ _ H) as (? & ? & ? & ?) end.
    apply db_ok_insert_session; done.
  - (* POST /api/reviews *)
    pose proof Hok as (_ & _ & _ & _ & Hse & _).
    match goal with H : _ = Some _ |- _ => destruct (Hse _ _ H) as (? & ? & ? & ?) end.
    rewrite !bool_decide_eq_false in Heqb2, Heqb3.
    destruct Heqb2 as [Hm|Hm]; apply dec_stable in Hm;
    destruct Heqb3 as [Hr|Hr]; apply dec_stable in Hr;
    apply db_ok_append_review; cbn; subst; eauto.
Qed.

Lemma db_ok_intro (db : DB) :
  map_Forall (fun i u => User.id u = i) (users db) ->
  map_Forall (fun i u => map_Forall (fun j v =>
     (User.username u = User.username v -> i = j) /\ (User.email u = User.email v -> i = j))
     (users db)) (users db) ->
  map_Forall (fun i k => Skill.id k = i /\ is_Some (users db !! Skill.userId k)) (skills db) ->
  map_Forall (fun i s => Session.id s = i /\ is_Some (users db !! Session.requesterId s) /\
     is_Some (users db !! Session.providerId s) /\ is_Some (skills db !! Session.skillId s))
     (sessions db) ->
  Forall (fun r => is_Some (sessions db !! Review.sessionId r) /\
     is_Some (users db !! Review.reviewerId r) /\ is_Some (users db !! Review.revieweeId r))
     (reviews db) ->
  db_ok db.
Proof.
  intros H1 H2 H3 H4 H5. split_and!.
  - intros i u Hi. apply (H1 i u Hi).
  - intros i j u v Hi Hj. apply (H2 i u Hi j v Hj).
  - intros i j u v Hi Hj. apply (H2 i u Hi j v Hj).
  - intros i k Hi. apply (H3 i k Hi).
  - intros i s Hi. apply (H4 i s Hi).
  - intros r Hr. rewrite Forall_forall in H5. apply H5, list_elem_of_In, Hr.
Qed.

Lemma example_db_ok : db_ok example_db.
Proof. apply db_ok_intro; apply (bool_decide_unpack _); vm_compute; exact I. Qed.

Lemma parseSkill_Some (b : SkillBody) n d c t e :
  parseSkill b = Some (n, d, c, t, e) ->
  sk_name b = FString n /\ (2 <= String.length n)%nat /\
  zoptional (sk_description b) = Some d /\
  sk_category b = FString c /\ (1 <= String.length c)%nat /\
  sk_type b = FString t /\ (t = "offering" \/ t = "seeking") /\
  zoptional (sk_experienceLevel b) = Some e.
Proof.
  unfold parseSkill, zstring.
  destruct b as [[] ? [] [] ?]; cbn; intros H; simplify_option_eq; auto 10.
Qed.

Lemma run_postSkill (db : DB) (uid : option string) (b : SkillBody) :
  let '(r, db') := run (postSkill uid b) db in
  (db' = db /\ code r <> 201%Z) \/
  exists me k,
    uid = Some me /\ r = mkResponse 201 (BSkill k) /\
    parseSkill b = Some (Skill.name k, Skill.description k, Skill.category k,
                         Skill.type k, Skill.experienceLevel k) /\
    Skill.id k = fresh_uuid db /\ Skill.userId k = me /\ Skill.createdAt k = now db /\
    skills db !! Skill.id k = None /\ is_Some (users db !! me) /\
    db' = mkDB (users db) (<[Skill.id k := k]> (skills db)) (sessions db) (reviews db)
            (N.succ (next_uuid db)) (now db).
Proof.
  unfold postSkill. unfold_M.
  destruct uid as [me|]; cbn; [|left; split; [reflexivity|discriminate]].
  destruct (parseSkill b) as [[[[[n d] c] t] e]|] eqn:Hp; cbn;
    [|left; split; [reflexivity|discriminate]].
  unfold createSkill, db_error, exit.
  destruct (bool_decide _ && bool_decide _) eqn:Hc; cbn;
    [|left; split; [reflexivity|discriminate]].
  apply andb_true_iff in Hc as [H1 H2]. apply bool_decide_eq_true in H1, H2.
  right. eexists _, _. repeat split; try reflexivity; done.
Qed.

(** X4. A 201 from [POST /api/skills] comes from a logged-in caller and
    inserts one new skill, under a key not used before, owned by the caller,
    of type offering or seeking, with a name of at least 2 and a category of
    at least 1 character; the other tables are unchanged. *)
Theorem postSkill_creates_owned_skill (db db' : DB) (uid : option string) (b : SkillBody)
    (r : Response) :
  run (postSkill uid b) db = (r, db') -> code r = 201%Z ->
  exists me k,
    uid = Some me /\ r = mkResponse 201 (BSkill k) /\ Skill.userId k = me /\
    (Skill.type k = "offering" \/ Skill.type k = "seeking") /\
    (2 <= String.length (Skill.name k))%nat /\ (1 <= String.length (Skill.category k))%nat /\
    skills db !! Skill.id k = None /\ skills db' = <[Skill.id k := k]> (skills db) /\
    users db' = users db /\ sessions db' = sessions db /\ reviews db' = reviews db.
Proof.
  intros Hrun Hc. pose proof (run_postSkill db uid b) as H. rewrite Hrun in H.
  destruct H as [[_ Hc']|(me & k & -> & -> & Hp & _ & Hu & _ & Hfresh & _ & ->)]; [done|].
  apply parseSkill_Some in Hp as (_ & Hn & _ & _ & Hcat & _ & Ht & _).
  exists me, k. done.
Qed.

Lemma postSkill_creates_owned_skill_witness :
  let b := mkSkillBody (FString "Chess") FAbsent (FString "Games") (FString "offering") FAbsent in
  let '(r, db') := run (postSkill (Some "C") b) example_db in
  code r = 201%Z /\
  exists me k,
    Some "C" = Some me /\ r = mkResponse 201 (BSkill k) /\ Skill.userId k = me /\
    (Skill.type k = "offering" \/ Skill.type k = "seeking") /\
    (2 <= String.length (Skill.name k))%nat /\ (1 <= String.length (Skill.category k))%nat /\
    skills example_db !! Skill.id k = None /\ skills db' = <[Skill.id k := k]> (skills example_db) /\
    users db' = users example_db /\ sessions db' = sessions example_db /\
    reviews db' = reviews example_db.
Proof.
  cbv zeta.
  destruct (run (postSkill (Some "C") _) example_db) as [r db'] eqn:Hrun.
  assert (Hc : code r = 201%Z).
  { vm_compute in Hrun. injection Hrun as <- <-. reflexivity. }
  split; [exact Hc|]. exact (postSkill_creates_owned_skill _ _ _ _ _ Hrun Hc).
Defined.

(** X5. A skill body the schema refuses gives 401 without a login and 400
    [Invalid input] with one, and writes nothing. *)
Theorem postSkill_rejects (db : DB) (b : SkillBody) (me : string) :
  parseSkill b = None ->
  run (postSkill None b) db = (respond 401 "Unauthorized", db) /\
  run (postSkill (Some me) b) db = (respond 400 "Invalid input", db).
Proof.
  intros Hp. split; [reflexivity|]. unfold postSkill. unfold_M. rewrite Hp. reflexivity.
Qed.

Lemma postSkill_rejects_witness :
  let b := mkSkillBody (FString "Chess") FAbsent (FString "Games") (FString "teaching") FAbsent in
  parseSkill b = None /\
  run (postSkill None b) example_db = (respond 401 "Unauthorized", example_db) /\
  run (postSkill (Some "C") b) example_db = (respond 400 "Invalid input", example_db).
Proof.
  cbv zeta. assert (Hp : parseSkill (mkSkillBody (FString "Chess") FAbsent (FString "Games")
                                      (FString "teaching") FAbsent) = None).
  { vm_compute. reflexivity. }
  split; [exact Hp|]. exact (postSkill_rejects example_db _ "C" Hp).
Defined.

Lemma run_deleteSkillRoute (db : DB) (me id : string) :
  run (deleteSkillRoute (Some me) id) db =
  match skills db !! id with
  | None => (respond 404 "Skill not found", db)
  | Some k => if bool_decide (Skill.userId k = me)
              then (respond 200 "Skill deleted", deleteSkill id db)
              else (respond 403 "Not authorized", db)
  end.
Proof.
  unfold deleteSkillRoute, modify. unfold_M.
  destruct (skills db !! id) as [k|]; cbn; [|reflexivity].
  destruct (decide (Skill.userId k = me)) as [He|He].
  - rewrite (bool_decide_eq_false_2 (Skill.userId k <> me)) by tauto.
    rewrite bool_decide_eq_true_2 by done. reflexivity.
  - rewrite (bool_decide_eq_true_2 (Skill.userId k <> me)) by done.
    rewrite bool_decide_eq_false_2 by done. reflexivity.
Qed.

(** X6. [DELETE /api/skills/:id] gives 404 for a missing skill and 403 for a
    skill of another user, and writes nothing. *)
Theorem deleteSkillRoute_refuses (db : DB) (me id : string) :
  match skills db !! id with
  | None => run (deleteSkillRoute (Some me) id) db = (respond 404 "Skill not found", db)
  | Some k => Skill.userId k <> me ->
              run (deleteSkillRoute (Some me) id) db = (respond 403 "Not authorized", db)
  end.
Proof.
  rewrite run_deleteSkillRoute. destruct (skills db !! id) as [k|]; [|reflexivity].
  intros Hne. rewrite bool_decide_eq_false_2 by done. reflexivity.
Qed.

Lemma deleteSkillRoute_refuses_witness :
  Skill.userId python_skill <> "A" /\
  run (deleteSkillRoute (Some "A") "k1") example_db = (respond 403 "Not authorized", example_db).
Proof.
  assert (Hne : Skill.userId python_skill <> "A") by (vm_compute; discriminate).
  split; [exact Hne|].
  exact (deleteSkillRoute_refuses example_db "A" "k1" Hne).
Defined.

(** X7. The owner deleting a skill gets 200; the skill is removed with exactly
    the sessions on it and the reviews of those sessions, and the users are
    unchanged. *)
Theorem deleteSkillRoute_owner_cascade (db db' : DB) (me id : string) (k : Skill.t)
    (r : Response) :
  skills db !! id = Some k -> Skill.userId k = me ->
  run (deleteSkillRoute (Some me) id) db = (r, db') ->
  r = respond 200 "Skill deleted" /\
  skills db' = delete id (skills db) /\ users db' = users db /\
  (forall j s, sessions db' !! j = Some s <->
     sessions db !! j = Some s /\ Session.skillId s <> id) /\
  (forall rv, In rv (reviews db') <->
     In rv (reviews db) /\
     forall s, sessions db !! Review.sessionId rv = Some s -> Session.skillId s <> id).
Proof.
  intros Hk Ho Hrun. rewrite run_deleteSkillRoute, Hk, bool_decide_eq_true_2 in Hrun by done.
  injection Hrun as <- <-. unfold deleteSkill; cbn. split_and!; try reflexivity.
  - intros j s. rewrite map_lookup_filter_Some. cbn. unfold session_of_skill.
    split; intros [Hs Hf]; split; try done.
    + intros He. rewrite bool_decide_eq_true_2 in Hf by done. done.
    + rewrite bool_decide_eq_false_2 by done. done.
  - intros rv. rewrite filter_In. unfold session_of_skill.
    destruct (sessions db !! Review.sessionId rv) as [s|]; cbn.
    + split.
      * intros [Hin Hf]. split; [done|]. intros s' [= <-] He.
        rewrite bool_decide_eq_true_2 in Hf by done. discriminate.
      * intros [Hin Hf]. split; [done|]. rewrite bool_decide_eq_false_2; [done|].
        apply Hf. reflexivity.
    + split; intros [Hin _]; split; done.
Qed.

Lemma deleteSkillRoute_owner_cascade_witness :
  let '(r, db') := run (deleteSkillRoute (Some "B") "k1") example_db in
  skills example_db !! "k1" = Some python_skill /\ Skill.userId python_skill = "B" /\
  r = respond 200 "Skill deleted" /\
  skills db' = delete "k1" (skills example_db) /\ users db' = users example_db /\
  (forall j s, sessions db' !! j = Some s <->
     sessions example_db !! j = Some s /\ Session.skillId s <> "k1") /\
  (forall rv, In rv (reviews db') <->
     In rv (reviews example_db) /\
     forall s, sessions example_db !! Review.sessionId rv = Some s -> Session.skillId s <> "k1").
Proof.
  destruct (run (deleteSkillRoute (Some "B") "k1") example_db) as [r db'] eqn:Hrun.
  assert (Hk : skills example_db !! "k1" = Some python_skill) by reflexivity.
  assert (Ho : Skill.userId python_skill = "B") by reflexivity.
  split; [exact Hk|]. split; [exact Ho|].
  exact (deleteSkillRoute_owner_cascade example_db db' "B" "k1" python_skill r Hk Ho Hrun).
Defined.

Lemma run_requestSession (db : DB) (uid : option string) (b : SessionRequestBody) :
  let '(r, db') := run (requestSession uid b) db in
  (db' = db /\ code r <> 201%Z) \/
  exists me k s,
    uid = Some me /\ r = mkResponse 201 (BSession (Some s)) /\
    sr_skillId b = FString (Session.skillId s) /\ sr_providerId b = FString (Session.providerId s) /\
    zoptional (sr_message b) = Some (Session.message s) /\
    skills db !! Session.skillId s = Some k /\ Skill.userId k = Session.providerId s /\
    Session.providerId s <> me /\ Session.requesterId s = me /\
    Session.status s = "pending" /\ Session.scheduledAt s = None /\
    Session.id s = fresh_uuid db /\ Session.createdAt s = now db /\
    sessions db !! Session.id s = None /\ is_Some (users db !! me) /\
    db' = mkDB (users db) (skills db) (<[Session.id s := s]> (sessions db)) (reviews db)
            (N.succ (next_uuid db)) (now db).
Proof.
  unfold requestSession, createSession, db_error. unfold_M.
  destruct uid as [me|]; cbn; [|left; split; [reflexivity|discriminate]].
  destruct b as [sk pr msg]; cbn.
  destruct (zstring sk) as [skillId|] eqn:Hsk, (zstring pr) as [providerId|] eqn:Hpr,
    (zoptional msg) as [message|] eqn:Hmsg; cbn;
    try (left; split; [reflexivity|discriminate]).
  destruct (skills db !! skillId) as [k|] eqn:Hk; cbn;
    [|left; split; [reflexivity|discriminate]].
  destruct (decide (Skill.userId k = providerId)) as [Ho|Ho];
    [rewrite bool_decide_eq_false_2 by tauto | rewrite bool_decide_eq_true_2 by done;
     left; split; [reflexivity|discriminate]]; cbn.
  destruct (decide (providerId = me)) as [Hm|Hm];
    [rewrite bool_decide_eq_true_2 by done; left; split; [reflexivity|discriminate]
    | rewrite bool_decide_eq_false_2 by done]; cbn.
  destruct (bool_decide _ && _ && _ && _) eqn:Hc; cbn;
    [|left; split; [reflexivity|discriminate]].
  apply andb_true_iff in Hc as [Hc H4]. apply andb_true_iff in Hc as [Hc H3].
  apply andb_true_iff in Hc as [H1 H2]. apply bool_decide_eq_true in H1, H2, H3, H4.
  assert (sk = FString skillId) as -> by (destruct sk; cbn in Hsk; congruence).
  assert (pr = FString providerId) as -> by (destruct pr; cbn in Hpr; congruence).
  right. eexists me, k, _. cbn. split_and!; try reflexivity; try done.
Qed.

(** X8. A 201 from [POST /api/sessions/request] inserts one new pending
    session, requested by the caller from another user who owns the requested
    skill; the other tables are unchanged. *)
Theorem requestSession_creates_pending (db db' : DB) (uid : option string)
    (b : SessionRequestBody) (r : Response) :
  run (requestSession uid b) db = (r, db') -> code r = 201%Z ->
  exists me s,
    uid = Some me /\ r = mkResponse 201 (BSession (Some s)) /\
    Session.status s = "pending" /\ Session.requesterId s = me /\
    Session.providerId s <> me /\
    (exists k, skills db !! Session.skillId s = Some k /\ Skill.userId k = Session.providerId s) /\
    sessions db !! Session.id s = None /\
    sessions db' = <[Session.id s := s]> (sessions db) /\
    users db' = users db /\ skills db' = skills db /\ reviews db' = reviews db.
Proof.
  intros Hrun Hc. pose proof (run_requestSession db uid b) as H. rewrite Hrun in H.
  destruct H as [[_ Hc']|(me & k & s & -> & -> & _ & _ & _ & Hk & Ho & Hne & Hreq & Hst &
                         _ & _ & _ & Hfresh & _ & ->)]; [done|].
  exists me, s. split_and!; try done. exists k. done.
Qed.

Lemma requestSession_creates_pending_witness :
  let b := mkSessionRequestBody (FString "k1") (FString "B") (FString "Chess for Python?") in
  let '(r, db') := run (requestSession (Some "C") b) example_db in
  code r = 201%Z /\
  exists me s,
    Some "C" = Some me /\ r = mkResponse 201 (BSession (Some s)) /\
    Session.status s = "pending" /\ Session.requesterId s = me /\
    Session.providerId s <> me /\
    (exists k, skills example_db !! Session.skillId s = Some k /\
               Skill.userId k = Session.providerId s) /\
    sessions example_db !! Session.id s = None /\
    sessions db' = <[Session.id s := s]> (sessions example_db) /\
    users db' = users example_db /\ skills db' = skills example_db /\
    reviews db' = reviews example_db.
Proof.
  cbv zeta.
  destruct (run (requestSession (Some "C") _) example_db) as [r db'] eqn:Hrun.
  assert (Hc : code r = 201%Z).
  { vm_compute in Hrun. injection Hrun as <- <-. reflexivity. }
  split; [exact Hc|]. exact (requestSession_creates_pending _ _ _ _ _ Hrun Hc).
Defined.

(** ** Admin *)

Lemma requireAdmin_denied {A} (db : DB) (uid : option string) (resp : Response) (k : string -> M A) :
  admin_denied db uid resp -> (mbind k (requireAdmin uid)) db = (inl resp, db).
Proof.
  intros [[-> ->]|(me & -> & Hu & ->)]; [reflexivity|].
  unfold requireAdmin. unfold_M. destruct (users db !! me) as [u|] eqn:Hme; cbn; [|reflexivity].
  rewrite (Hu u eq_refl). reflexivity.
Qed.

(** X9. The four admin routes answer 401 without a login and 403 to a caller
    whose stored row is missing or not an admin, and write nothing. *)
Theorem admin_routes_require_admin (db : DB) (uid : option string) (resp : Response)
    (id : string) (isAdmin : FlagField) :
  admin_denied db uid resp ->
  run (adminListUsers uid) db = (resp, db) /\
  run (adminSetAdmin uid id isAdmin) db = (resp, db) /\
  run (adminDeleteUser uid id) db = (resp, db) /\
  run (adminStats uid) db = (resp, db).
Proof.
  intros H. unfold adminListUsers, adminSetAdmin, adminDeleteUser, adminStats, run.
  rewrite !(requireAdmin_denied db uid resp _ H). done.
Qed.

Lemma admin_routes_require_admin_witness :
  admin_denied example_db (Some "C") (respond 403 "Forbidden") /\
  run (adminListUsers (Some "C")) example_db = (respond 403 "Forbidden", example_db) /\
  run (adminSetAdmin (Some "C") "C" (FlagBool true)) example_db = (respond 403 "Forbidden", example_db) /\
  run (adminDeleteUser (Some "C") "A") example_db = (respond 403 "Forbidden", example_db) /\
  run (adminStats (Some "C")) example_db = (respond 403 "Forbidden", example_db).
Proof.
  assert (H : admin_denied example_db (Some "C") (respond 403 "Forbidden")).
  { right. exists "C". split; [reflexivity|]. split; [|reflexivity].
    intros u Hu. vm_compute in Hu. injection Hu as <-. reflexivity. }
  split; [exact H|].
  exact (admin_routes_require_admin example_db (Some "C") _ "A" (FlagBool true) H).
Defined.

Lemma run_requireAdmin_ok {A} (db : DB) (me : string) (u : User.t) (k : string -> M A) :
  users db !! me = Some u -> User.isAdmin u = true ->
  (mbind k (requireAdmin (Some me))) db = k me db.
Proof.
  intros Hu Ha. unfold requireAdmin. unfold_M. rewrite Hu. cbn. rewrite Ha. reflexivity.
Qed.

(** X10. For an admin, [GET /api/admin/users] lists every stored user once,
    newest first, each without its password. *)
Theorem adminListUsers_lists_all (db : DB) (me : string) (u : User.t) :
  users db !! me = Some u -> User.isAdmin u = true ->
  exists l,
    run (adminListUsers (Some me)) db =
      (mkResponse 200 (BUsers (map user_json_without_password l)), db) /\
    l ≡ₚ map snd (map_to_list (users db)) /\
    Sorted (fun a b => (User.createdAt b <= User.createdAt a)%Z) l /\
    Forall (fun j => uj_password j = None) (map user_json_without_password l).
Proof.
  intros Hu Ha. exists (getAllUsers db). split_and!.
  - unfold adminListUsers, run. rewrite (run_requireAdmin_ok db me u _ Hu Ha). reflexivity.
  - apply merge_sort_Permutation.
  - apply Sorted_merge_sort. intros a b. unfold user_newer_first. lia.
  - apply Forall_forall. intros j Hj. apply list_elem_of_In, in_map_iff in Hj as (v & <- & _).
    reflexivity.
Qed.

(** X11. An admin deleting their own account gets 400 [Cannot delete yourself]
    and nothing is written. *)
Theorem adminDeleteUser_self (db : DB) (me : string) (u : User.t) :
  users db !! me = Some u -> User.isAdmin u = true ->
  run (adminDeleteUser (Some me) me) db = (respond 400 "Cannot delete yourself", db).
Proof.
  intros Hu Ha. unfold adminDeleteUser, run. rewrite (run_requireAdmin_ok db me u _ Hu Ha).
  unfold_M. rewrite bool_decide_eq_true_2 by reflexivity. reflexivity.
Qed.

(** X12. An admin deleting another user removes that user, their skills, every
    session they take part in or that is on one of their skills, and leaves
    only reviews that neither they wrote nor received. *)
Theorem adminDeleteUser_cascade (db db' : DB) (me id : string) (u : User.t) (r : Response) :
  users db !! me = Some u -> User.isAdmin u = true -> id <> me ->
  run (adminDeleteUser (Some me) id) db = (r, db') ->
  r = respond 200 "User deleted" /\
  users db' = delete id (users db) /\
  (forall j k, skills db' !! j = Some k <-> skills db !! j = Some k /\ Skill.userId k <> id) /\
  (forall j s, sessions db' !! j = Some s <->
     sessions db !! j = Some s /\ Session.requesterId s <> id /\ Session.providerId s <> id /\
     forall k, skills db !! Session.skillId s = Some k -> Skill.userId k <> id) /\
  (forall rv, In rv (reviews db') ->
     In rv (reviews db) /\ Review.reviewerId rv <> id /\ Review.revieweeId rv <> id).
Proof.
  intros Hu Ha Hne Hrun. unfold adminDeleteUser, run in Hrun.
  rewrite (run_requireAdmin_ok db me u _ Hu Ha) in Hrun. unfold modify in Hrun. unfold_M.
  rewrite bool_decide_eq_false_2 in Hrun by congruence. cbn in Hrun.
  injection Hrun as <- <-. unfold deleteUser; cbn. split_and!; try reflexivity.
  - intros j k. rewrite map_lookup_filter_Some. cbn. unfold skill_of_user.
    split; intros [Hk Hf]; split; try done.
    + intros He. rewrite bool_decide_eq_true_2 in Hf by done. done.
    + rewrite bool_decide_eq_false_2 by done. done.
  - intros j s. rewrite map_lookup_filter_Some. cbn. unfold session_of_user, skill_of_user.
    split.
    + intros [Hs Hf]. apply Is_true_eq_true, negb_true_iff, orb_false_iff in Hf as [Hf Hk].
      apply orb_false_iff in Hf as [Hr Hp]. apply bool_decide_eq_false in Hr, Hp.
      split_and!; try done. intros k Hk'. rewrite Hk' in Hk. apply bool_decide_eq_false in Hk.
      done.
    + intros (Hs & Hr & Hp & Hk). split; [done|]. apply Is_true_eq_left.
      rewrite (bool_decide_eq_false_2 _ Hr), (bool_decide_eq_false_2 _ Hp). cbn.
      destruct (skills db !! Session.skillId s) as [k|] eqn:Hk'; [|reflexivity].
      rewrite bool_decide_eq_false_2; [reflexivity|]. apply Hk. reflexivity.
  - intros rv Hrv. apply filter_In in Hrv as [Hin Hf]. unfold review_of_user in Hf.
    apply negb_true_iff, orb_false_iff in Hf as [Hf _].
    apply orb_false_iff in Hf as [H1 H2]. apply bool_decide_eq_false in H1, H2. done.
Qed.

(** X13. For an admin, [PATCH /api/admin/users/:id] answers 500 and writes
    nothing when the update statement fails whatever the id ([isAdmin]
    absent, an array or object, or text PostgreSQL cannot read as a
    boolean); otherwise 404 with no write for an unknown id, 500 with no
    write for [null] on an existing user, and for a boolean value it
    changes only that user's isAdmin flag and answers the row without its
    password. *)
Theorem adminSetAdmin_sets_flag (db db' : DB) (me id : string) (u : User.t)
    (flag : FlagField) (r : Response) :
  users db !! me = Some u -> User.isAdmin u = true ->
  run (adminSetAdmin (Some me) id flag) db = (r, db') ->
  match flag_param flag, users db !! id with
  | None, _ => r = respond 500 "An error occurred. Please try again." /\ db' = db
  | Some _, None => r = respond 404 "User not found" /\ db' = db
  | Some None, Some _ => r = respond 500 "An error occurred. Please try again." /\ db' = db
  | Some (Some b), Some v =>
      r = mkResponse 200 (BUser (user_json_without_password (set_isAdmin b v))) /\
      users db' = <[id := set_isAdmin b v]> (users db) /\
      skills db' = skills db /\ sessions db' = sessions db /\ reviews db' = reviews db
  end.
Proof.
  intros Hu Ha Hrun. unfold adminSetAdmin, run in Hrun.
  rewrite (run_requireAdmin_ok db me u _ Hu Ha) in Hrun. unfold updateUser, db_error in Hrun.
  unfold_M.
  destruct (flag_param flag) as [[b|]|]; cbn in Hrun;
    [destruct (users db !! id) as [v|]; cbn in Hrun
    |destruct (users db !! id) as [v|]; cbn in Hrun
    |]; injection Hrun as <- <-; done.
Qed.

(** X14. An admin may clear their own admin flag (200), after which the admin
    routes refuse them with 403. *)
Theorem adminSetAdmin_self_demotion (db : DB) (me : string) (u : User.t) :
  users db !! me = Some u -> User.isAdmin u = true ->
  let '(r, db') := run (adminSetAdmin (Some me) me (FlagBool false)) db in
  code r = 200%Z /\ run (adminStats (Some me)) db' = (respond 403 "Forbidden", db').
Proof.
  intros Hu Ha. unfold adminSetAdmin, run.
  rewrite (run_requireAdmin_ok db me u _ Hu Ha). unfold updateUser. unfold_M. rewrite Hu. cbn.
  split; [reflexivity|]. unfold adminStats.
  rewrite (requireAdmin_denied _ (Some me) (respond 403 "Forbidden")); [reflexivity|].
  right. exists me. split_and!; try reflexivity. cbn. rewrite lookup_insert_eq.
  intros v [= <-]. reflexivity.
Qed.

Lemma bump_spec (l : list (string * nat)) (key : string) :
  NoDup (map fst l) ->
  NoDup (map fst (bump l key)) /\
  forall k n, In (k, n) (bump l key) <->
    (k <> key /\ In (k, n) l) \/
    (k = key /\ ((n = 1%nat /\ forall m, ~ In (key, m) l) \/ exists m, In (key, m) l /\ n = S m)).
Proof.
  induction l as [|[k0 n0] t IH]; cbn; intros Hnd.
  - split. { constructor; [apply not_elem_of_nil|constructor]. }
    intros k n. split.
    + intros [[= <- <-]|[]]. right. split; [done|]. left. split; [done|]. intros m [].
    + intros [[_ []]|[-> [[-> _]|(m & [] & _)]]]. left. done.
  - apply NoDup_cons in Hnd as [Hk0 Hnd]. rewrite list_elem_of_In in Hk0. destruct (String.eqb_spec k0 key) as [<-|Hne]; cbn.
    + split; [apply NoDup_cons; rewrite list_elem_of_In; done|].
      intros k n. split.
      * intros [[= <- <-]|Hin].
        -- right. split; [done|]. right. exists n0. split; [left; done|done].
        -- left. split; [|right; done]. intros ->. apply Hk0, in_map_iff. exists (k0, n). done.
      * intros [[Hk [[= -> ->]|Hin]]|[-> [[_ Hm]|(m & [[= ->]|Hin] & ->)]]].
        -- done.
        -- right. done.
        -- exfalso. apply (Hm n0). left. done.
        -- left. done.
        -- exfalso. apply Hk0, in_map_iff. exists (k0, m). done.
    + destruct (IH Hnd) as [Hnd' Hin']. split.
      * apply NoDup_cons. split; [|done]. rewrite list_elem_of_In. intros Hk. apply in_map_iff in Hk as ([k' n'] & Hk' & Hin).
        cbn in Hk'. subst k'. apply Hin' in Hin as [[_ Hin]|[-> _]].
        -- apply Hk0, in_map_iff. exists (k0, n'). done.
        -- done.
      * intros k n. rewrite Hin'. split.
        -- intros [[= <- <-]|[[Hk Hin]|[-> Hr]]].
           ++ left. split; [done|left; done].
           ++ left. split; [done|right; done].
           ++ right. split; [done|]. destruct Hr as [[-> Hm]|(m & Hm & ->)].
              ** left. split; [done|]. intros m [[= <- _]|Hm']; [done|]. apply (Hm m Hm').
              ** right. exists m. split; [right; done|done].
        -- intros [[Hk [[= <- <-]|Hin]]|[-> Hr]].
           ++ left. done.
           ++ right. left. done.
           ++ right. right. split; [done|]. destruct Hr as [[-> Hm]|(m & [[= <- _]|Hm] & ->)].
              ** left. split; [done|]. intros m Hm'. apply (Hm m). right. done.
              ** done.
              ** right. exists m. done.
Qed.

Lemma count_by_fold (keys pre : list string) (acc : list (string * nat)) :
  NoDup (map fst acc) ->
  (forall k n, In (k, n) acc <->
     k <> "__proto__" /\ (0 < n)%nat /\ n = length (List.filter (fun x => String.eqb x k) pre)) ->
  let res := fold_left (fun counts key =>
               if String.eqb key "__proto__" then counts else bump counts key) keys acc in
  NoDup (map fst res) /\
  (forall k n, In (k, n) res <->
     k <> "__proto__" /\ (0 < n)%nat /\
     n = length (List.filter (fun x => String.eqb x k) (pre ++ keys)%list)).
Proof.
  revert pre acc. induction keys as [|key keys IH]; intros pre acc Hnd Hacc; cbn.
  - rewrite app_nil_r. done.
  - replace (pre ++ key :: keys)%list with ((pre ++ [key]) ++ keys)%list
      by (rewrite <-app_assoc; reflexivity).
    apply IH.
    + destruct (String.eqb key "__proto__"); [done|]. apply bump_spec. done.
    + intros k n. rewrite List.filter_app, length_app. cbn.
      destruct (String.eqb_spec key "__proto__") as [Hp|Hp].
      * rewrite Hacc. destruct (String.eqb_spec key k) as [<-|Hne]; cbn.
        -- split; intros (Hk & _); done.
        -- rewrite Nat.add_0_r. done.
      * destruct (bump_spec acc key Hnd) as [_ Hb]. rewrite Hb.
        destruct (String.eqb_spec key k) as [<-|Hne]; cbn.
        -- split.
           ++ intros [[Hk _]|[_ [[-> Hm]|(m & Hm & ->)]]]; [done| |].
              ** split_and!; [done|lia|].
                 destruct (length (List.filter _ pre)) as [|c] eqn:Hc; [lia|].
                 exfalso. apply (Hm (S c)), Hacc. split_and!; [done|lia|done].
              ** apply Hacc in Hm as (_ & _ & ->). split_and!; [done|lia|lia].
           ++ intros (_ & Hn & ->). right. split; [done|].
              destruct (length (List.filter _ pre)) as [|c] eqn:Hc.
              ** left. split; [lia|]. intros m Hm. apply Hacc in Hm as (_ & Hm0 & Hm1). lia.
              ** right. exists (S c). split; [apply Hacc; split_and!; [done|lia|done]|lia].
        -- rewrite Nat.add_0_r, <-Hacc. split; [intros [[_ H]|[H _]]; done|].
           intros H. left. split; [congruence|done].
Qed.

Lemma count_by_spec (keys : list string) :
  NoDup (map fst (count_by keys)) /\
  (forall k n, In (k, n) (count_by keys) <->
     k <> "__proto__" /\ (0 < n)%nat /\ n = length (List.filter (fun x => String.eqb x k) keys)).
Proof.
  apply (count_by_fold keys [] []); [constructor|]. intros k n. cbn. split; [intros []|lia].
Qed.


Lemma length_filter_map {A B} (f : B -> bool) (g : A -> B) (l : list A) :
  length (List.filter f (map g l)) = length (List.filter (fun x => f (g x)) l).
Proof. induction l as [|x l IH]; cbn; [done|]. destruct (f (g x)); cbn; lia. Qed.

(** X15. For categories and statuses that are not names of Object.prototype,
    [getStats] returns the sizes of the three tables and, per category and per
    status, the number of rows that have it, each key once; ["__proto__"]
    never appears. *)
Theorem getStats_histograms (db : DB) :
  map_Forall (fun _ k => Skill.category k ∉ object_prototype_names) (skills db) ->
  map_Forall (fun _ s => Session.status s ∉ object_prototype_names) (sessions db) ->
  let st := getStats db in
  totalUsers st = size (users db) /\ totalSkills st = size (skills db) /\
  totalSessions st = size (sessions db) /\
  NoDup (map fst (skillsByCategory st)) /\
  (forall c n, In (c, n) (skillsByCategory st) <->
     c <> "__proto__" /\ (0 < n)%nat /\
     n = length (List.filter (fun k => String.eqb (Skill.category k) c)
                   (map snd (map_to_list (skills db))))) /\
  NoDup (map fst (sessionsByStatus st)) /\
  (forall c n, In (c, n) (sessionsByStatus st) <->
     c <> "__proto__" /\ (0 < n)%nat /\
     n = length (List.filter (fun s => String.eqb (Session.status s) c)
                   (map snd (map_to_list (sessions db))))).
Proof.
  intros _ _. unfold getStats; cbn.
  rewrite !length_map, !length_map_to_list.
  destruct (count_by_spec (map Skill.category (map snd (map_to_list (skills db))))) as [H1 H2].
  destruct (count_by_spec (map Session.status (map snd (map_to_list (sessions db))))) as [H3 H4].
  split_and!; try done.
  - intros c n. rewrite H2, length_filter_map. done.
  - intros c n. rewrite H4, length_filter_map. done.
Qed.

Lemma getStats_histograms_witness :
  map_Forall (fun _ k => Skill.category k ∉ object_prototype_names) (skills example_db) /\
  map_Forall (fun _ s => Session.status s ∉ object_prototype_names) (sessions example_db) /\
  let st := getStats example_db in
  totalUsers st = size (users example_db) /\ totalSkills st = size (skills example_db) /\
  totalSessions st = size (sessions example_db) /\
  NoDup (map fst (skillsByCategory st)) /\
  (forall c n, In (c, n) (skillsByCategory st) <->
     c <> "__proto__" /\ (0 < n)%nat /\
     n = length (List.filter (fun k => String.eqb (Skill.category k) c)
                   (map snd (map_to_list (skills example_db))))) /\
  NoDup (map fst (sessionsByStatus st)) /\
  (forall c n, In (c, n) (sessionsByStatus st) <->
     c <> "__proto__" /\ (0 < n)%nat /\
     n = length (List.filter (fun s => String.eqb (Session.status s) c)
                   (map snd (map_to_list (sessions example_db))))).
Proof.
  assert (H1 : map_Forall (fun _ k => Skill.category k ∉ object_prototype_names)
                 (skills example_db)) by (apply (bool_decide_unpack _); vm_compute; exact I).
  assert (H2 : map_Forall (fun _ s => Session.status s ∉ object_prototype_names)
                 (sessions example_db)) by (apply (bool_decide_unpack _); vm_compute; exact I).
  split; [exact H1|]. split; [exact H2|]. exact (getStats_histograms example_db H1 H2).
Defined.

Lemma Permutation_list_filter {A} (f : A -> bool) (l l' : list A) :
  l ≡ₚ l' -> List.filter f l ≡ₚ List.filter f l'.
Proof.
  induction 1; cbn.
  - done.
  - destruct (f x); [constructor|]; done.
  - destruct (f x), (f y); try constructor; done.
  - etrans; done.
Qed.

Lemma list_filter_filter {A} (f g : A -> bool) (l : list A) :
  List.filter f (List.filter g l) = List.filter (fun x => g x && f x) l.
Proof. induction l as [|x l IH]; cbn; [done|]. destruct (g x); cbn; [destruct (f x); cbn|]; rewrite IH; reflexivity. Qed.

Lemma Sorted_map_rel {A B} (R : A -> A -> Prop) (R' : B -> B -> Prop) (f : A -> B) (l : list A) :
  (forall a b, R a b -> R' (f a) (f b)) -> Sorted R l -> Sorted R' (map f l).
Proof.
  intros HR Hs. induction Hs as [|a l Hs IH Hd]; cbn; constructor; [done|].
  destruct Hd; cbn; constructor. apply HR. done.
Qed.

Lemma sessions_join_sessions (db : DB) (u : string) :
  db_ok db ->
  map (fun x => x.1.1) (sessions_join db u) =
  List.filter (fun s => bool_decide (Session.requesterId s = u \/ Session.providerId s = u))
    (map snd (map_to_list (sessions db))).
Proof.
  intros (_ & _ & _ & _ & Hse & _). unfold sessions_join.
  assert (Hl : forall s, In s (map snd (map_to_list (sessions db))) ->
                 is_Some (users db !! Session.requesterId s) /\ is_Some (skills db !! Session.skillId s)).
  { intros s Hs. apply in_map_iff in Hs as ([i s'] & <- & Hin).
    apply list_elem_of_In, elem_of_map_to_list in Hin. cbn.
    destruct (Hse i s' Hin) as (_ & ? & _ & ?). done. }
  induction (map snd (map_to_list (sessions db))) as [|s l IH]; cbn; [done|].
  rewrite <-IH by (intros; apply Hl; right; done).
  destruct (Hl s (or_introl eq_refl)) as [[r Hr] [k Hk]].
  destruct (decide (Session.requesterId s = u \/ Session.providerId s = u)) as [Hp|Hp].
  - rewrite (bool_decide_eq_true_2 _ Hp).
    replace (bool_decide (Session.requesterId s = u) || bool_decide (Session.providerId s = u))
      with true by (destruct Hp as [Hp|Hp]; rewrite (bool_decide_eq_true_2 _ Hp);
                    [done|symmetry; apply orb_true_r]).
    cbn. rewrite Hr, Hk. done.
  - rewrite (bool_decide_eq_false_2 _ Hp).
    rewrite !bool_decide_eq_false_2 by tauto. done.
Qed.

Lemma getSessionsByUserId_perm (db : DB) (u : string) :
  db_ok db ->
  map swd_session (getSessionsByUserId db u) ≡ₚ
    List.filter (fun s => bool_decide (Session.requesterId s = u \/ Session.providerId s = u))
      (map snd (map_to_list (sessions db))).
Proof.
  intros Hok. unfold getSessionsByUserId.
  rewrite <-(sessions_join_sessions db u Hok), map_map.
  transitivity (map (fun x => x.1.1) (merge_sort session_newer_first (sessions_join db u))).
  - apply reflexive_eq, map_ext. intros [[s r] k]. done.
  - apply Permutation_map, (merge_sort_Permutation session_newer_first).
Qed.

(** X16. With every foreign key resolving, [getSessionsByUserId] returns each
    session the user requested or provides exactly once, joined with its
    requester, provider and skill rows, newest first. *)
Theorem getSessionsByUserId_complete (db : DB) (u : string) :
  db_ok db ->
  map swd_session (getSessionsByUserId db u) ≡ₚ
    List.filter (fun s => bool_decide (Session.requesterId s = u \/ Session.providerId s = u))
      (map snd (map_to_list (sessions db))) /\
  Forall (fun d =>
    users db !! Session.requesterId (swd_session d) = Some (swd_requester d) /\
    swd_provider d = users db !! Session.providerId (swd_session d) /\
    is_Some (swd_provider d) /\
    skills db !! Session.skillId (swd_session d) = Some (swd_skill d))
    (getSessionsByUserId db u) /\
  Sorted (fun a b => (Session.createdAt (swd_session b) <= Session.createdAt (swd_session a))%Z)
    (getSessionsByUserId db u).
Proof.
  intros Hok. split_and!; [apply getSessionsByUserId_perm; done| |].
  all: unfold getSessionsByUserId.
  - apply Forall_forall. intros d Hd. apply list_elem_of_In, in_map_iff in Hd as ([[s r] k] & <- & Hin).
    cbn. apply (Permutation_in _ (merge_sort_Permutation session_newer_first _)) in Hin.
    unfold sessions_join in Hin. apply list_elem_of_In, list_elem_of_omap in Hin as (s' & Hs' & Hx).
    destruct (bool_decide _ || bool_decide _); [|discriminate].
    destruct (users db !! Session.requesterId s') as [r'|] eqn:Hr; [|discriminate]. cbn in Hx.
    destruct (skills db !! Session.skillId s') as [k'|] eqn:Hk; [|discriminate]. cbn in Hx.
    injection Hx as <- <- <-. split_and!; try done.
    destruct Hok as (_ & _ & _ & _ & Hse & _).
    apply list_elem_of_In, in_map_iff in Hs' as ([i s''] & <- & Hin).
    apply list_elem_of_In, elem_of_map_to_list in Hin. apply (Hse i _ Hin).
  - apply (Sorted_map_rel session_newer_first); [|apply Sorted_merge_sort; apply _].
    intros [[a ?] ?] [[b ?] ?]. unfold session_newer_first. done.
Qed.

Lemma getSessionsByUserId_complete_witness :
  db_ok example_db /\
  map swd_session (getSessionsByUserId example_db "A") ≡ₚ
    List.filter (fun s => bool_decide (Session.requesterId s = "A" \/ Session.providerId s = "A"))
      (map snd (map_to_list (sessions example_db))) /\
  Forall (fun d =>
    users example_db !! Session.requesterId (swd_session d) = Some (swd_requester d) /\
    swd_provider d = users example_db !! Session.providerId (swd_session d) /\
    is_Some (swd_provider d) /\
    skills example_db !! Session.skillId (swd_session d) = Some (swd_skill d))
    (getSessionsByUserId example_db "A") /\
  Sorted (fun a b => (Session.createdAt (swd_session b) <= Session.createdAt (swd_session a))%Z)
    (getSessionsByUserId example_db "A").
Proof.
  split; [exact example_db_ok|]. exact (getSessionsByUserId_complete example_db "A" example_db_ok).
Defined.

Lemma completedCount_filter (l : list Session.t) :
  completedCount l = length (List.filter (fun s => String.eqb (Session.status s) "completed") l).
Proof. reflexivity. Qed.

(** X17. [GET /api/users/:id/stats] gives 404 for an unknown user; otherwise
    its completed-session count counts sessions in both roles (requester or
    provider), next to the offering skills and the reviews received. *)
Theorem getUserStats_counts (db : DB) (id : string) :
  db_ok db ->
  match users db !! id with
  | None => run (getUserStats id) db = (respond 404 "User not found", db)
  | Some _ =>
      exists st,
        run (getUserStats id) db = (mkResponse 200 (BUserStats st), db) /\
        us_completedSessions st =
          length (List.filter (fun s => bool_decide
                    ((Session.requesterId s = id \/ Session.providerId s = id) /\
                     Session.status s = "completed"))
                  (map snd (map_to_list (sessions db)))) /\
        us_offeringSkills st =
          length (List.filter (fun k => bool_decide
                    (Skill.userId k = id /\ Skill.type k = "offering"))
                  (map snd (map_to_list (skills db)))) /\
        us_reviewCount st =
          length (List.filter (fun r => bool_decide (Review.revieweeId r = id)) (reviews db))
  end.
Proof.
  intros Hok. unfold getUserStats. unfold_M.
  destruct (users db !! id) as [u|]; cbn; [|reflexivity].
  eexists. split; [reflexivity|]. cbn. split_and!.
  - unfold completedCount.
    rewrite (Permutation_length (Permutation_list_filter _ _ _ (getSessionsByUserId_perm db id Hok))).
    rewrite list_filter_filter. f_equal. apply filter_ext. intros s.
    destruct (String.eqb_spec (Session.status s) "completed");
      destruct (decide (Session.requesterId s = id \/ Session.providerId s = id)).
    all: repeat first [rewrite bool_decide_eq_true_2 by tauto | rewrite bool_decide_eq_false_2 by tauto];
      reflexivity.
  - unfold offeringCount, getSkillsByUserId.
    rewrite (Permutation_length (Permutation_list_filter _ _ _
               (merge_sort_Permutation skill_newer_first _))).
    rewrite list_filter_filter. f_equal. apply filter_ext. intros k.
    destruct (String.eqb_spec (Skill.type k) "offering");
      destruct (decide (Skill.userId k = id)).
    all: repeat first [rewrite bool_decide_eq_true_2 by tauto | rewrite bool_decide_eq_false_2 by tauto];
      reflexivity.
  - unfold getReviewsByUserId. apply Permutation_length, (merge_sort_Permutation review_newer_first).
Qed.

Lemma getUserByUsername_Some (db : DB) (n : string) (u : User.t) :
  getUserByUsername db n = Some u -> (exists i, users db !! i = Some u) /\ User.username u = n.
Proof.
  unfold getUserByUsername. intros H.
  assert (Hin : In u (List.filter (fun u => bool_decide (User.username u = n))
                        (map snd (map_to_list (users db))))).
  { destruct (List.filter _ _); cbn in H; [discriminate|]. injection H as ->. left. done. }
  apply filter_In in Hin as [Hin Hn]. apply bool_decide_eq_true in Hn. split; [|done].
  apply in_map_iff in Hin as ([i v] & <- & Hin). exists i.
  apply list_elem_of_In, elem_of_map_to_list in Hin. done.
Qed.

Lemma getUserByUsername_None_iff (db : DB) (n : string) :
  getUserByUsername db n = None <-> forall i u, users db !! i = Some u -> User.username u <> n.
Proof.
  unfold getUserByUsername. split.
  - intros H i u Hu Heq.
    assert (Hin : In u (List.filter (fun u => bool_decide (User.username u = n))
                          (map snd (map_to_list (users db))))).
    { apply filter_In. split; [|apply bool_decide_eq_true; done].
      apply in_map_iff. exists (i, u). split; [done|].
      apply list_elem_of_In, elem_of_map_to_list. done. }
    destruct (List.filter _ _); [done|discriminate].
  - intros H. destruct (List.filter _ _) as [|u l] eqn:Hf; [done|].
    assert (Hin : In u (u :: l)) by (left; done). rewrite <-Hf in Hin.
    apply filter_In in Hin as [Hin Hn]. apply bool_decide_eq_true in Hn.
    apply in_map_iff in Hin as ([i v] & <- & Hin).
    apply list_elem_of_In, elem_of_map_to_list in Hin. exfalso. apply (H i v Hin Hn).
Qed.

Lemma getUserByEmail_None_iff (db : DB) (e : string) :
  getUserByEmail db e = None <-> forall i u, users db !! i = Some u -> User.email u <> e.
Proof.
  unfold getUserByEmail. split.
  - intros H i u Hu Heq.
    assert (Hin : In u (List.filter (fun u => bool_decide (User.email u = e))
                          (map snd (map_to_list (users db))))).
    { apply filter_In. split; [|apply bool_decide_eq_true; done].
      apply in_map_iff. exists (i, u). split; [done|].
      apply list_elem_of_In, elem_of_map_to_list. done. }
    destruct (List.filter _ _); [done|discriminate].
  - intros H. destruct (List.filter _ _) as [|u l] eqn:Hf; [done|].
    assert (Hin : In u (u :: l)) by (left; done). rewrite <-Hf in Hin.
    apply filter_In in Hin as [Hin Hn]. apply bool_decide_eq_true in Hn.
    apply in_map_iff in Hin as ([i v] & <- & Hin).
    apply list_elem_of_In, elem_of_map_to_list in Hin. exfalso. apply (H i v Hin Hn).
Qed.

(** X18. Registering a valid body whose username or e-mail already belongs
    to a stored user answers 400, creates no account and sets no session:
    a taken username gets [Username already taken] (checked first), and a
    free username with a taken e-mail gets [Email already registered]. *)
Theorem register_taken (is_email : string -> bool) (b : RegisterBody) (hashed : string)
    (db : DB) (username password email fullName : string) (i : string) (v : User.t) :
  parseRegister is_email b = Some (username, password, email, fullName) ->
  users db !! i = Some v -> User.username v = username \/ User.email v = email ->
  let '(r, sid, db') := run_with_session (register is_email b hashed) db in
  sid = None /\ db' = db /\
  ((exists j w, users db !! j = Some w /\ User.username w = username) ->
     r = respond 400 "Username already taken") /\
  ((forall j w, users db !! j = Some w -> User.username w <> username) ->
     r = respond 400 "Email already registered").
Proof.
  intros Hp Hv Hdup. unfold run_with_session, register. rewrite Hp. unfold_M.
  destruct (bool_decide (is_Some (getUserByUsername db username))) eqn:H1; cbn.
  - apply bool_decide_eq_true in H1. destruct H1 as [w1 Hw1].
    apply getUserByUsername_Some in Hw1 as ([j Hj] & Hn).
    split_and!; try reflexivity. intros Hno. exfalso. exact (Hno j w1 Hj Hn).
  - apply bool_decide_eq_false in H1.
    assert (Hnone : getUserByUsername db username = None).
    { destruct (getUserByUsername db username) eqn:Hg; [exfalso; apply H1; eexists; done|done]. }
    assert (Hfree := proj1 (getUserByUsername_None_iff db username) Hnone).
    destruct (bool_decide (is_Some (getUserByEmail db email))) eqn:H2; cbn.
    + split_and!; try reflexivity. intros (j & w & Hj & Hn). exfalso. exact (Hfree j w Hj Hn).
    + exfalso. apply bool_decide_eq_false in H2.
      destruct Hdup as [Hd|Hd]; [exact (Hfree i v Hv Hd)|].
      destruct (getUserByEmail db email) eqn:Hg; [apply H2; eexists; done|].
      exact (proj1 (getUserByEmail_None_iff _ _) Hg i v Hv Hd).
Qed.

(** X19. A 201 from register stores one new non-admin user with the bcrypt
    hash as its password and the fresh, distinct username and e-mail of the
    body, answers the row without its password and logs the new user in. *)
Theorem register_creates_user (is_email : string -> bool) (b : RegisterBody) (hashed : string)
    (db db' : DB) (r : Response) (sid : option string) :
  run_with_session (register is_email b hashed) db = (r, sid, db') -> code r = 201%Z ->
  exists u password,
    parseRegister is_email b = Some (User.username u, password, User.email u, User.fullName u) /\
    r = mkResponse 201 (BAuthUser (user_json_without_password u)) /\
    sid = Some (User.id u) /\
    User.password u = hashed /\ User.isAdmin u = false /\
    users db !! User.id u = None /\
    (forall i v, users db !! i = Some v ->
       User.username v <> User.username u /\ User.email v <> User.email u) /\
    users db' = <[User.id u := u]> (users db) /\
    skills db' = skills db /\ sessions db' = sessions db /\ reviews db' = reviews db.
Proof.
  unfold run_with_session, register. intros Hrun Hc.
  destruct (parseRegister is_email b) as [[[[username password] email] fullName]|] eqn:Hp;
    [|unfold_M; injection Hrun as <- _ _; discriminate].
  unfold createUser, db_error in Hrun. unfold_M.
  destruct (bool_decide (is_Some (getUserByUsername db username))) eqn:H1; cbn in Hrun;
    [injection Hrun as <- _ _; discriminate|].
  destruct (bool_decide (is_Some (getUserByEmail db email))) eqn:H2; cbn in Hrun;
    [injection Hrun as <- _ _; discriminate|].
  destruct (bool_decide _ && bool_decide _ && bool_decide _) eqn:H3; cbn in Hrun;
    [|injection Hrun as <- _ _; discriminate].
  injection Hrun as <- <- <-.
  apply andb_true_iff in H3 as [H3 H5]. apply andb_true_iff in H3 as [H3 H4].
  apply bool_decide_eq_true in H3, H4, H5.
  rewrite getUserByUsername_None_iff in H4. rewrite getUserByEmail_None_iff in H5.
  eexists _, password. cbn. split_and!; try reflexivity; try done.
  intros i v Hv. split; [apply (H4 i v Hv)|apply (H5 i v Hv)].
Qed.

Lemma getUserByUsername_unique (db : DB) (i : string) (u : User.t) :
  db_ok db -> users db !! i = Some u -> getUserByUsername db (User.username u) = Some u.
Proof.
  intros (Hid & Hun & _) Hu. destruct (getUserByUsername db (User.username u)) as [v|] eqn:Hg.
  - apply getUserByUsername_Some in Hg as ([j Hj] & Hn).
    assert (j = i) as -> by (apply (Hun j i v u Hj Hu Hn)). congruence.
  - rewrite getUserByUsername_None_iff in Hg. exfalso. apply (Hg i u Hu). done.
Qed.

(** X20. Login with a stored username and a matching password answers the user
    without its password and logs them in; an unknown username and a wrong
    password both give the same 401 [Invalid username or password] and no
    session. Login never writes. *)
Theorem login_outcome (bcrypt_compare : string -> string -> bool) (db : DB)
    (username password : string) :
  db_ok db ->
  let b := mkLoginBody (FString username) (FString password) in
  (forall i u, users db !! i = Some u -> User.username u = username ->
     bcrypt_compare password (User.password u) = true ->
     run_with_session (login bcrypt_compare b) db =
       (mkResponse 200 (BAuthUser (user_json_without_password u)), Some i, db)) /\
  ((forall i u, users db !! i = Some u -> User.username u = username ->
      bcrypt_compare password (User.password u) = false) ->
   run_with_session (login bcrypt_compare b) db =
     (respond 401 "Invalid username or password", None, db)).
Proof.
  intros Hok. cbv zeta. split.
  - intros i u Hu <- Hc. unfold run_with_session, login. unfold_M. cbn.
    rewrite (getUserByUsername_unique db i u Hok Hu). cbn. rewrite Hc.
    destruct Hok as (Hid & _). rewrite (Hid i u Hu). reflexivity.
  - intros Hwrong. unfold run_with_session, login. unfold_M. cbn.
    destruct (getUserByUsername db username) as [u|] eqn:Hg; cbn; [|reflexivity].
    apply getUserByUsername_Some in Hg as ([i Hi] & Hn).
    rewrite (Hwrong i u Hi Hn). reflexivity.
Qed.

(** X21. [GET /api/skills/my] gives 401 without a login; otherwise exactly the
    caller stored skills, newest first. *)
Theorem getMySkills_lists_own (db : DB) (uid : option string) :
  match uid with
  | None => run (getMySkills uid) db = (respond 401 "Unauthorized", db)
  | Some me =>
      exists l, run (getMySkills uid) db = (mkResponse 200 (BSkillList l), db) /\
        (forall k, In k l <-> exists j, skills db !! j = Some k /\ Skill.userId k = me) /\
        Sorted (fun a b => (Skill.createdAt b <= Skill.createdAt a)%Z) l
  end.
Proof.
  destruct uid as [me|]; [|reflexivity].
  exists (getSkillsByUserId db me). split_and!; [reflexivity| |].
  - intros k. unfold getSkillsByUserId. rewrite <-list_elem_of_In.
    rewrite (merge_sort_Permutation skill_newer_first _).
    rewrite list_elem_of_In, filter_In, bool_decide_eq_true, in_map_iff. split.
    + intros (([j v] & <- & Hin) & Hk). exists j. split; [|done].
      apply list_elem_of_In, elem_of_map_to_list in Hin. done.
    + intros (j & Hj & Hk). split; [|done]. exists (j, k). split; [done|].
      apply list_elem_of_In, elem_of_map_to_list. done.
  - apply Sorted_merge_sort. apply _.
Qed.

(** X25. [GET /api/reviews/:userId] needs no login and returns every review
    the user received, each once, newest first, with no session and no
    write. *)
Theorem getReviews_lists_received is_email cmp (uid : option string) (db : DB) (u : string) :
  exists l,
    run_with_session (handle is_email cmp uid (RReviews u)) db =
      (mkResponse 200 (BReviews l), None, db) /\
    l ≡ₚ List.filter (fun r => bool_decide (Review.revieweeId r = u)) (reviews db) /\
    Sorted (fun a b => (Review.createdAt b <= Review.createdAt a)%Z) l.
Proof.
  exists (getReviewsByUserId db u). split_and!.
  - reflexivity.
  - apply (merge_sort_Permutation review_newer_first).
  - apply Sorted_merge_sort. apply _.
Qed.

(** X22. Every status button the Dashboard SessionCard shows the signed-in
    user, sent for the session as stored, is accepted by [PATCH
    /api/sessions/:id] (200), which stores the new status. *)
Theorem card_action_accepted (db : DB) (s : Session.t) (me st : string) :
  sessions db !! Session.id s = Some s -> In st (card_actions s me) ->
  run (patchSession (Some me) (Session.id s) (Some st)) db =
    (mkResponse 200 (BSession (Some (set_status st s))),
     mkDB (users db) (skills db) (<[Session.id s := set_status st s]> (sessions db))
          (reviews db) (next_uuid db) (now db)).
Proof.
  intros Hs Hin. unfold card_actions in Hin.
  assert (Hcase : (st = "accepted" \/ st = "completed" \/ st = "cancelled") /\
                  (st = "cancelled" -> Session.providerId s = me \/ Session.requesterId s = me) /\
                  (st <> "cancelled" -> Session.providerId s = me)).
  { repeat (rewrite in_app_iff in Hin).
    destruct Hin as [Hin|[Hin|Hin]];
      repeat match type of Hin with
             | context [if ?c then _ else _] => destruct c eqn:?
             end; cbn in Hin; try contradiction;
      repeat match goal with
             | H : (_ && _)%bool = true |- _ => apply andb_true_iff in H as [? ?]
             | H : bool_decide _ = true |- _ => apply bool_decide_eq_true in H
             end;
      destruct Hin as [<-|Hin]; try destruct Hin as [<-|Hin]; try contradiction;
      split_and!; auto; try discriminate; intros; congruence. }
  destruct Hcase as (Hst & Hc & Hp).
  unfold patchSession, run, getSession, updateSession. unfold_M. cbn.
  rewrite (bool_decide_eq_true_2 (st ∈ _)) by (destruct Hst as [->|[->| ->]]; set_solver).
  cbn. rewrite Hs. cbn.
  destruct (bool_decide (st = "accepted") || bool_decide (st = "completed")) eqn:Hac.
  - assert (st <> "cancelled").
    { intros ->. apply orb_true_iff in Hac as [H|H]; apply bool_decide_eq_true in H; discriminate. }
    rewrite bool_decide_eq_false_2 by (rewrite Hp by done; congruence). cbn. rewrite Hs. reflexivity.
  - destruct (bool_decide (st = "cancelled")) eqn:Hcn.
    + apply bool_decide_eq_true in Hcn.
      destruct (Hc Hcn) as [Hm|Hm].
      * rewrite (bool_decide_eq_false_2 (Session.providerId s <> me)) by congruence.
        cbn. rewrite Hs. reflexivity.
      * rewrite (bool_decide_eq_false_2 (Session.requesterId s <> me)) by congruence.
        rewrite andb_false_r. cbn. rewrite Hs. reflexivity.
    + cbn. rewrite Hs. reflexivity.
Qed.

Lemma Qred_inject_Z (z : Z) : Qred (inject_Z z) = inject_Z z.
Proof.
  unfold Qred, inject_Z.
  pose proof (Z.ggcd_gcd z 1) as Hg. pose proof (Z.ggcd_correct_divisors z 1) as Hd.
  destruct (Z.ggcd z 1) as [g [aa bb]]. cbn in Hg. rewrite Z.gcd_1_r in Hg. subst g.
  destruct Hd as [Ha Hb]. rewrite Z.mul_1_l in Ha, Hb. subst. reflexivity.
Qed.

(** X23. The review the Dashboard sends for a stored completed session with 1
    to 5 stars is accepted (201): its reviewee is the provider when the user
    requested the session and the requester otherwise. *)
Theorem submitReview_accepted (db : DB) (s : Session.t) (me : string) (star : Z)
    (comment : string) :
  sessions db !! Session.id s = Some s -> Session.status s = "completed" ->
  (Session.requesterId s = me \/ Session.providerId s = me) ->
  (1 <= star <= 5)%Z -> Session.id s <> "" ->
  Session.requesterId s <> "" -> Session.providerId s <> "" ->
  let other := if bool_decide (Session.requesterId s = me)
               then Session.providerId s else Session.requesterId s in
  run (postReview (Some me) (submitReview_body s me star comment)) db =
    (mkResponse 201 (BReview (Review.mk (fresh_uuid db) (Session.id s) me other star
                               (Some comment) (now db))),
     mkDB (users db) (skills db) (sessions db)
          (reviews db ++ [Review.mk (fresh_uuid db) (Session.id s) me other star
                            (Some comment) (now db)])
          (N.succ (next_uuid db)) (now db)).
Proof.
  intros Hs Hst Hme Hstar Hid Hr Hp. cbv zeta.
  unfold postReview, submitReview_body, run, getSession, createReview. unfold_M. cbn.
  set (other := if bool_decide (Session.requesterId s = me)
                then Session.providerId s else Session.requesterId s).
  assert (Hother : other <> "") by (unfold other; case_bool_decide; done).
  rewrite (bool_decide_eq_true_2 (Session.id s <> "")) by done.
  rewrite (bool_decide_eq_true_2 (other <> "")) by done.
  assert (H1 : Qle_bool 1 (inject_Z star) = true).
  { apply Qle_bool_iff. change 1%Q with (inject_Z 1). rewrite <-Zle_Qle. lia. }
  assert (H5 : Qle_bool (inject_Z star) 5 = true).
  { apply Qle_bool_iff. change 5%Q with (inject_Z 5). rewrite <-Zle_Qle. lia. }
  rewrite H1, H5. cbn. rewrite Hs. cbn.
  rewrite (bool_decide_eq_false_2 (Session.status s <> "completed")) by (intros []; done).
  cbn.
  replace (bool_decide (Session.requesterId s <> me) && bool_decide (Session.providerId s <> me))
    with false by (destruct Hme as [<-|<-];
                   [rewrite (bool_decide_eq_false_2 (Session.requesterId s <> Session.requesterId s))
                      by (intros []; done)
                   |rewrite (bool_decide_eq_false_2 (Session.providerId s <> Session.providerId s))
                      by (intros []; done); rewrite andb_false_r]; reflexivity).
  cbn.
  replace (bool_decide (other <> Session.requesterId s) && bool_decide (other <> Session.providerId s))
    with false by (unfold other; destruct (bool_decide (Session.requesterId s = me));
                   [rewrite (bool_decide_eq_false_2 (Session.providerId s <> Session.providerId s))
                      by (intros []; done); rewrite andb_false_r
                   |rewrite (bool_decide_eq_false_2 (Session.requesterId s <> Session.requesterId s))
                      by (intros []; done)]; reflexivity).
  cbn. rewrite Qred_inject_Z. cbn. reflexivity.
Qed.

(** X24. Requesting a session on a skill listed by the Search page (an
    offering skill of another user) from a stored user is accepted (201) and
    stores a pending session with the skill owner as provider. *)
Theorem search_request_accepted (db : DB) (q c : option string) (l : list SkillWithUser)
    (x : SkillWithUser) (me message : string) :
  db_ok db -> is_Some (users db !! me) -> sessions db !! fresh_uuid db = None ->
  fst (run (getSearch q c) db) = mkResponse 200 (BSkills l) ->
  In x (filteredSkills (Some me) l) ->
  let k := swu_skill x in
  let s := Session.mk (fresh_uuid db) me (Skill.userId k) (Skill.id k) "pending" None
             (Some message) (now db) in
  run (requestSession (Some me) (request_body x message)) db =
    (mkResponse 201 (BSession (Some s)),
     mkDB (users db) (skills db) (<[fresh_uuid db := s]> (sessions db)) (reviews db)
          (N.succ (next_uuid db)) (now db)).
Proof.
  intros Hok Hme Hfresh Hl Hin. cbv zeta.
  unfold getSearch, searchSkills, run in Hl. unfold_M. cbn in Hl.
  injection Hl as <-.
  unfold filteredSkills in Hin. apply filter_In in Hin as [Hin Hf].
  apply andb_true_iff in Hf as [_ Hnotme]. apply negb_true_iff, bool_decide_eq_false in Hnotme.
  apply in_search_result in Hin as [(j & k & u & Hk & Hu & ->) _]. cbn in *.
  destruct Hok as (_ & _ & _ & Hsk & _).
  destruct (Hsk j k Hk) as [Hkid _]. subst j.
  unfold requestSession, request_body, createSession, run. unfold_M. cbn.
  rewrite Hk. cbn.
  rewrite (bool_decide_eq_false_2 (Skill.userId k <> Skill.userId k)) by (intros []; done). cbn.
  rewrite (bool_decide_eq_false_2 (Skill.userId k = me)) by congruence. cbn.
  rewrite Hfresh, Hu, Hk. cbn.
  destruct Hme as [v ->]. cbn. reflexivity.
Qed.


(** ** Instances on the example data *)

Lemma handle_error_no_write_witness :
  let '(r, sid, db') :=
    run_with_session (handle (fun _ => true) String.eqb None RMySkills) example_db in
  (400 <= code r)%Z /\ db' = example_db /\ sid = None.
Proof.
  generalize (handle_error_no_write (fun _ => true) String.eqb None RMySkills example_db).
  destruct (run_with_session _ example_db) as [[r sid] db'] eqn:Hrun. intros H.
  assert (Hc : (400 <= code r)%Z).
  { vm_compute in Hrun. injection Hrun as <- _ _. cbn. lia. }
  split; [exact Hc|]. exact (H Hc).
Defined.

Lemma handle_read_only_witness :
  read_only RMySessions = true /\
  snd (run_with_session (handle (fun _ => true) String.eqb (Some "A") RMySessions) example_db)
    = example_db.
Proof.
  split; [reflexivity|]. apply handle_read_only. reflexivity.
Defined.

Lemma handle_db_ok_witness :
  db_ok example_db /\
  let req := RRequestSession (mkSessionRequestBody (FString "k1") (FString "B") FAbsent) in
  let '(r, sid, db') := run_with_session (handle (fun _ => true) String.eqb (Some "C") req)
                          example_db in
  db_ok db'.
Proof.
  split; [exact example_db_ok|]. cbv zeta.
  exact (handle_db_ok (fun _ => true) String.eqb (Some "C")
           (RRequestSession (mkSessionRequestBody (FString "k1") (FString "B") FAbsent))
           example_db example_db_ok).
Defined.

Lemma adminListUsers_lists_all_witness :
  users admin_db !! "D" = Some dave /\ User.isAdmin dave = true /\
  exists l,
    run (adminListUsers (Some "D")) admin_db =
      (mkResponse 200 (BUsers (map user_json_without_password l)), admin_db) /\
    l ≡ₚ map snd (map_to_list (users admin_db)) /\
    Sorted (fun a b => (User.createdAt b <= User.createdAt a)%Z) l /\
    Forall (fun j => uj_password j = None) (map user_json_without_password l).
Proof.
  assert (Hd : users admin_db !! "D" = Some dave) by reflexivity.
  split; [exact Hd|]. split; [reflexivity|].
  exact (adminListUsers_lists_all admin_db "D" dave Hd eq_refl).
Defined.

Lemma adminDeleteUser_self_witness :
  users admin_db !! "D" = Some dave /\ User.isAdmin dave = true /\
  run (adminDeleteUser (Some "D") "D") admin_db = (respond 400 "Cannot delete yourself", admin_db).
Proof.
  assert (Hd : users admin_db !! "D" = Some dave) by reflexivity.
  split; [exact Hd|]. split; [reflexivity|].
  exact (adminDeleteUser_self admin_db "D" dave Hd eq_refl).
Defined.

Lemma adminDeleteUser_cascade_witness :
  let '(r, db') := run (adminDeleteUser (Some "D") "A") admin_db in
  users admin_db !! "D" = Some dave /\ User.isAdmin dave = true /\ "A" <> "D" /\
  r = respond 200 "User deleted" /\
  users db' = delete "A" (users admin_db) /\
  (forall j k, skills db' !! j = Some k <-> skills admin_db !! j = Some k /\ Skill.userId k <> "A") /\
  (forall j s, sessions db' !! j = Some s <->
     sessions admin_db !! j = Some s /\ Session.requesterId s <> "A" /\
     Session.providerId s <> "A" /\
     forall k, skills admin_db !! Session.skillId s = Some k -> Skill.userId k <> "A") /\
  (forall rv, In rv (reviews db') ->
     In rv (reviews admin_db) /\ Review.reviewerId rv <> "A" /\ Review.revieweeId rv <> "A").
Proof.
  destruct (run (adminDeleteUser (Some "D") "A") admin_db) as [r db'] eqn:Hrun.
  assert (Hd : users admin_db !! "D" = Some dave) by reflexivity.
  assert (Hne : "A" <> "D") by discriminate.
  split; [exact Hd|]. split; [reflexivity|]. split; [exact Hne|].
  exact (adminDeleteUser_cascade admin_db db' "D" "A" dave r Hd eq_refl Hne Hrun).
Defined.

Lemma adminSetAdmin_sets_flag_witness :
  let '(r, db') := run (adminSetAdmin (Some "D") "C" (FlagText " Yes")) admin_db in
  users admin_db !! "D" = Some dave /\ User.isAdmin dave = true /\
  match flag_param (FlagText " Yes"), users admin_db !! "C" with
  | None, _ => r = respond 500 "An error occurred. Please try again." /\ db' = admin_db
  | Some _, None => r = respond 404 "User not found" /\ db' = admin_db
  | Some None, Some _ => r = respond 500 "An error occurred. Please try again." /\ db' = admin_db
  | Some (Some b), Some v =>
      r = mkResponse 200 (BUser (user_json_without_password (set_isAdmin b v))) /\
      users db' = <["C" := set_isAdmin b v]> (users admin_db) /\
      skills db' = skills admin_db /\ sessions db' = sessions admin_db /\
      reviews db' = reviews admin_db
  end.
Proof.
  destruct (run (adminSetAdmin (Some "D") "C" (FlagText " Yes")) admin_db) as [r db'] eqn:Hrun.
  assert (Hd : users admin_db !! "D" = Some dave) by reflexivity.
  split; [exact Hd|]. split; [reflexivity|].
  exact (adminSetAdmin_sets_flag admin_db db' "D" "C" dave (FlagText " Yes") r Hd eq_refl Hrun).
Defined.

Lemma adminSetAdmin_self_demotion_witness :
  users admin_db !! "D" = Some dave /\ User.isAdmin dave = true /\
  let '(r, db') := run (adminSetAdmin (Some "D") "D" (FlagBool false)) admin_db in
  code r = 200%Z /\ run (adminStats (Some "D")) db' = (respond 403 "Forbidden", db').
Proof.
  assert (Hd : users admin_db !! "D" = Some dave) by reflexivity.
  split; [exact Hd|]. split; [reflexivity|].
  exact (adminSetAdmin_self_demotion admin_db "D" dave Hd eq_refl).
Defined.

Lemma getUserStats_counts_witness :
  db_ok example_db /\
  match users example_db !! "B" with
  | None => run (getUserStats "B") example_db = (respond 404 "User not found", example_db)
  | Some _ =>
      exists st,
        run (getUserStats "B") example_db = (mkResponse 200 (BUserStats st), example_db) /\
        us_completedSessions st =
          length (List.filter (fun s => bool_decide
                    ((Session.requesterId s = "B" \/ Session.providerId s = "B") /\
                     Session.status s = "completed"))
                  (map snd (map_to_list (sessions example_db)))) /\
        us_offeringSkills st =
          length (List.filter (fun k => bool_decide
                    (Skill.userId k = "B" /\ Skill.type k = "offering"))
                  (map snd (map_to_list (skills example_db)))) /\
        us_reviewCount st =
          length (List.filter (fun r => bool_decide (Review.revieweeId r = "B"))
                    (reviews example_db))
  end.
Proof.
  split; [exact example_db_ok|]. exact (getUserStats_counts example_db "B" example_db_ok).
Defined.

Lemma register_taken_witness :
  parseRegister (fun _ => true) alice_again = Some ("alice", "password1", "x@ex.org", "Alice2") /\
  users example_db !! "A" = Some alice /\
  (User.username alice = "alice" \/ User.email alice = "x@ex.org") /\
  let '(r, sid, db') := run_with_session (register (fun _ => true) alice_again "h") example_db in
  sid = None /\ db' = example_db /\
  ((exists j w, users example_db !! j = Some w /\ User.username w = "alice") ->
     r = respond 400 "Username already taken") /\
  ((forall j w, users example_db !! j = Some w -> User.username w <> "alice") ->
     r = respond 400 "Email already registered").
Proof.
  assert (Hp : parseRegister (fun _ => true) alice_again =
                 Some ("alice", "password1", "x@ex.org", "Alice2")) by reflexivity.
  assert (Ha : users example_db !! "A" = Some alice) by reflexivity.
  assert (Hn : User.username alice = "alice" \/ User.email alice = "x@ex.org") by (left; reflexivity).
  split; [exact Hp|]. split; [exact Ha|]. split; [exact Hn|].
  exact (register_taken (fun _ => true) alice_again "h" example_db _ _ _ _ "A" alice Hp Ha Hn).
Defined.

Lemma register_creates_user_witness :
  let '(r, sid, db') := run_with_session (register (fun _ => true) erin_signup "$2b$10$erinhash")
                          example_db in
  code r = 201%Z /\
  exists u password,
    parseRegister (fun _ => true) erin_signup =
      Some (User.username u, password, User.email u, User.fullName u) /\
    r = mkResponse 201 (BAuthUser (user_json_without_password u)) /\
    sid = Some (User.id u) /\
    User.password u = "$2b$10$erinhash" /\ User.isAdmin u = false /\
    users example_db !! User.id u = None /\
    (forall i v, users example_db !! i = Some v ->
       User.username v <> User.username u /\ User.email v <> User.email u) /\
    users db' = <[User.id u := u]> (users example_db) /\
    skills db' = skills example_db /\ sessions db' = sessions example_db /\
    reviews db' = reviews example_db.
Proof.
  destruct (run_with_session (register (fun _ => true) erin_signup "$2b$10$erinhash") example_db)
    as [[r sid] db'] eqn:Hrun.
  assert (Hc : code r = 201%Z).
  { vm_compute in Hrun. injection Hrun as <- _ _. reflexivity. }
  split; [exact Hc|].
  exact (register_creates_user (fun _ => true) erin_signup _ example_db db' r sid Hrun Hc).
Defined.

Lemma login_outcome_witness :
  db_ok example_db /\
  let b := mkLoginBody (FString "bob") (FString "$2b$10$bobhash") in
  (forall i u, users example_db !! i = Some u -> User.username u = "bob" ->
     String.eqb "$2b$10$bobhash" (User.password u) = true ->
     run_with_session (login String.eqb b) example_db =
       (mkResponse 200 (BAuthUser (user_json_without_password u)), Some i, example_db)) /\
  ((forall i u, users example_db !! i = Some u -> User.username u = "bob" ->
      String.eqb "$2b$10$bobhash" (User.password u) = false) ->
   run_with_session (login String.eqb b) example_db =
     (respond 401 "Invalid username or password", None, example_db)).
Proof.
  split; [exact example_db_ok|].
  exact (login_outcome String.eqb example_db "bob" "$2b$10$bobhash" example_db_ok).
Defined.

Lemma card_action_accepted_witness :
  let s := session_with_status "s3" "pending" in
  sessions example_db !! Session.id s = Some s /\ In "accepted" (card_actions s "B") /\
  run (patchSession (Some "B") (Session.id s) (Some "accepted")) example_db =
    (mkResponse 200 (BSession (Some (set_status "accepted" s))),
     mkDB (users example_db) (skills example_db)
          (<[Session.id s := set_status "accepted" s]> (sessions example_db))
          (reviews example_db) (next_uuid example_db) (now example_db)).
Proof.
  cbv zeta.
  assert (Hs : sessions example_db !! Session.id (session_with_status "s3" "pending") =
                 Some (session_with_status "s3" "pending")) by reflexivity.
  assert (Hin : In "accepted" (card_actions (session_with_status "s3" "pending") "B"))
    by (vm_compute; left; reflexivity).
  split; [exact Hs|]. split; [exact Hin|].
  exact (card_action_accepted example_db _ "B" "accepted" Hs Hin).
Defined.

Lemma submitReview_accepted_witness :
  let s := session_with_status "s1" "completed" in
  sessions example_db !! Session.id s = Some s /\ Session.status s = "completed" /\
  (Session.requesterId s = "A" \/ Session.providerId s = "A") /\
  (1 <= 5 <= 5)%Z /\ Session.id s <> "" /\
  Session.requesterId s <> "" /\ Session.providerId s <> "" /\
  run (postReview (Some "A") (submitReview_body s "A" 5 "Great teacher")) example_db =
    (mkResponse 201 (BReview (Review.mk (fresh_uuid example_db) "s1" "A" "B" 5
                               (Some "Great teacher") (now example_db))),
     mkDB (users example_db) (skills example_db) (sessions example_db)
          (reviews example_db ++ [Review.mk (fresh_uuid example_db) "s1" "A" "B" 5
                                    (Some "Great teacher") (now example_db)])
          (N.succ (next_uuid example_db)) (now example_db)).
Proof.
  cbv zeta.
  assert (Hs : sessions example_db !! Session.id (session_with_status "s1" "completed") =
                 Some (session_with_status "s1" "completed")) by reflexivity.
  assert (Hme : Session.requesterId (session_with_status "s1" "completed") = "A" \/
                Session.providerId (session_with_status "s1" "completed") = "A")
    by (left; reflexivity).
  assert (Hstar : (1 <= 5 <= 5)%Z) by lia.
  split; [exact Hs|]. split; [reflexivity|]. split; [exact Hme|]. split; [exact Hstar|].
  split; [discriminate|]. split; [discriminate|]. split; [discriminate|].
  exact (submitReview_accepted example_db _ "A" 5 "Great teacher" Hs eq_refl Hme Hstar
           ltac:(discriminate) ltac:(discriminate) ltac:(discriminate)).
Defined.

Lemma search_request_accepted_witness :
  let l := filter_category None (filter_query None (baseQuery example_db)) in
  let x := mkSkillWithUser python_skill (user_json bob) in
  db_ok example_db /\ is_Some (users example_db !! "C") /\
  sessions example_db !! fresh_uuid example_db = None /\
  fst (run (getSearch None None) example_db) = mkResponse 200 (BSkills l) /\
  In x (filteredSkills (Some "C") l) /\
  run (requestSession (Some "C") (request_body x "Chess for Python?")) example_db =
    (mkResponse 201 (BSession (Some (Session.mk (fresh_uuid example_db) "C" "B" "k1" "pending"
                                       None (Some "Chess for Python?") (now example_db)))),
     mkDB (users example_db) (skills example_db)
          (<[fresh_uuid example_db := Session.mk (fresh_uuid example_db) "C" "B" "k1" "pending"
                                        None (Some "Chess for Python?") (now example_db)]>
             (sessions example_db))
          (reviews example_db) (N.succ (next_uuid example_db)) (now example_db)).
Proof.
  cbv zeta.
  assert (Hc : is_Some (users example_db !! "C")) by (eexists; reflexivity).
  assert (Hf : sessions example_db !! fresh_uuid example_db = None) by reflexivity.
  assert (Hl : fst (run (getSearch None None) example_db) =
                 mkResponse 200 (BSkills (filter_category None (filter_query None
                                           (baseQuery example_db))))) by reflexivity.
  assert (Hin : In (mkSkillWithUser python_skill (user_json bob))
                  (filteredSkills (Some "C") (filter_category None (filter_query None
                                                (baseQuery example_db)))))
    by (vm_compute; right; left; reflexivity).
  split; [exact example_db_ok|]. split; [exact Hc|]. split; [exact Hf|].
  split; [exact Hl|]. split; [exact Hin|].
  exact (search_request_accepted example_db None None _ _ "C" "Chess for Python?"
           example_db_ok Hc Hf Hl Hin).
Defined.
